(** * Freezing-time estimator of [streamlit_app.py]

    A shallow embedding of [interpolate_freezing_time] and of the module-level
    dictionary [data_points] it reads, together with the part of
    [scipy.interpolate.interp1d(kind='cubic', fill_value='extrapolate')] the
    function relies on, and of what [main] computes for the page: the result
    panel, the quick reference table, the sampled curve and the highlighted
    point.

    Numbers.  A Python [float] is either a finite binary64 value, one of the
    two infinities, or NaN.  Every finite binary64 value is a rational, so a
    finite number is embedded as a [Q]; arithmetic on finite numbers is exact
    (neither the rounding nor the overflow of binary64 is modelled),
    comparisons against the non-finite values follow IEEE-754 as Python
    exposes it.  An exact rational value in a statement is the value of this
    exact evaluation; what carries over to the binary64 evaluation is what
    rounding leaves true: what the threshold tests and the floor at zero
    decide, a sign, or a bound kept with a margin many orders above the
    rounding error.  Integer keys and values of the dictionary are taken to
    convert to floating point without loss, as the shipped ones do. *)

From Stdlib Require Import ZArith QArith Qabs Qfield Qround Lia Lqa List Bool.
From stdpp Require Import gmap sorting.
Import ListNotations.

Local Open Scope Q_scope.

(** ** Python values *)

Inductive pyfloat : Type :=
| Finite (q : Q)
| PosInf
| NegInf
| NaN.

(** What the function can hand back: [None] or a number.  The integer [0]
    of [return 0] and of [max(0, ...)] and the float [0.0] are the same
    number here. *)
Inductive pyvalue : Type :=
| PyNone
| PyNum (x : pyfloat).

(** Exceptions.  [KeyError] is a failed [data_points[t]]; [InterpError]
    stands for the exception raised by [interp1d] when it cannot build the
    spline (a [ValueError] of scipy for too few nodes).  [ConfigurationError]
    is the error class a guard on the number of anchors would raise: the
    source defines no such class and has no [raise] statement, so nothing
    below raises it. *)
Inductive exn : Type :=
| KeyError (k : Z)
| InterpError
| ConfigurationError.

Inductive outcome (A : Type) : Type :=
| Return (a : A)
| Raise (e : exn).
Arguments Return {A} a.
Arguments Raise {A} e.

Module PyFloat.

(** [a <= b] in Python: every comparison with NaN is [False]. *)
Definition le (a b : pyfloat) : bool :=
  match a, b with
  | NaN, _ | _, NaN => false
  | NegInf, _ => true
  | _, PosInf => true
  | Finite x, Finite y => Qle_bool x y
  | _, _ => false
  end.

(** [a < b] in Python. *)
Definition lt (a b : pyfloat) : bool :=
  match a, b with
  | NaN, _ | _, NaN => false
  | NegInf, NegInf => false
  | PosInf, PosInf => false
  | NegInf, _ => true
  | _, PosInf => true
  | Finite x, Finite y => negb (Qle_bool y x)
  | _, _ => false
  end.

Definition ge (a b : pyfloat) : bool := le b a.
Definition gt (a b : pyfloat) : bool := lt b a.

(** The builtin [max(a, b)] on two arguments: it keeps [a] unless
    [b > a]. *)
Definition max (a b : pyfloat) : pyfloat := if gt b a then b else a.

Definition of_Z (z : Z) : pyfloat := Finite (inject_Z z).

Definition is_finite (a : pyfloat) : bool :=
  match a with Finite _ => true | _ => false end.

(** [a == b] in Python. *)
Definition eq (a b : pyfloat) : bool :=
  match a, b with
  | Finite x, Finite y => Qeq_bool x y
  | PosInf, PosInf | NegInf, NegInf => true
  | _, _ => false
  end.

(** An infinity times a finite number. *)
Definition mul_inf (positive : bool) (x : Q) : pyfloat :=
  match Qcompare x 0 with
  | Eq => NaN
  | Gt => if positive then PosInf else NegInf
  | Lt => if positive then NegInf else PosInf
  end.

(** [a * b] in Python; finite products are exact. *)
Definition mul (a b : pyfloat) : pyfloat :=
  match a, b with
  | NaN, _ | _, NaN => NaN
  | Finite x, Finite y => Finite (x * y)
  | PosInf, Finite x | Finite x, PosInf => mul_inf true x
  | NegInf, Finite x | Finite x, NegInf => mul_inf false x
  | PosInf, PosInf | NegInf, NegInf => PosInf
  | PosInf, NegInf | NegInf, PosInf => NegInf
  end.

(** Nearest integer, a tie going to the even neighbour. *)
Definition round_half_even (q : Q) : Z :=
  let f := Qfloor q in
  match Qcompare (q - inject_Z f) (1 # 2) with
  | Lt => f
  | Gt => (f + 1)%Z
  | Eq => if Z.even f then f else (f + 1)%Z
  end.

(** [round(x, 1)]: the decimal with one digit after the point that is
    nearest to the exact value of [x], a tie going to the even digit; an
    infinity or NaN is returned as it is. *)
Definition round1 (x : pyfloat) : pyfloat :=
  match x with
  | Finite q => Finite (inject_Z (round_half_even (q * 10)) / 10)
  | _ => x
  end.

End PyFloat.

(** ** The module globals and the monad of the function body *)

(** The only global the function reads.  A [dict] with integer keys and
    integer values. *)
Record globals : Type := { g_data_points : gmap Z Z }.

(** A computation reads and may write the globals and either returns or
    raises. *)
Definition M (A : Type) : Type := globals -> outcome A * globals.

Definition ret {A} (a : A) : M A := fun g => (Return a, g).
Definition raise {A} (e : exn) : M A := fun g => (Raise e, g).
Definition bind {A B} (m : M A) (k : A -> M B) : M B :=
  fun g => match m g with
           | (Return a, g') => k a g'
           | (Raise e, g') => (Raise e, g')
           end.
Definition read_data_points : M (gmap Z Z) := fun g => (Return (g_data_points g), g).
Definition lift {A} (o : outcome A) : M A := fun g => (o, g).

Declare Scope py_scope.
Delimit Scope py_scope with py.
Notation "x <- m ;; k" := (bind m (fun x => k))
  (at level 100, m at next level, right associativity) : py_scope.

Fixpoint mapM {A B} (f : A -> M B) (l : list A) : M (list B) :=
  match l with
  | [] => ret []
  | a :: l' => (b <- f a ;; bs <- mapM f l' ;; ret (b :: bs))%py
  end.

(** ** The dictionary *)

(** [data_points = {32: 21, -4: 2, 0: 4, -15: 0}], entries in the order of
    the literal. *)
Definition data_points : gmap Z Z :=
  <[(-15)%Z := 0%Z]> (<[0%Z := 4%Z]> (<[(-4)%Z := 2%Z]> (<[32%Z := 21%Z]> ∅))).

Definition module_globals : globals := {| g_data_points := data_points |}.

(** [sorted(d.keys())]: a fresh list, ascending. *)
Definition sorted_keys (d : gmap Z Z) : list Z :=
  merge_sort Z.le (map_to_list d).*1.

(** [d[t]] *)
Definition getitem (d : gmap Z Z) (t : Z) : M Z :=
  match d !! t with
  | Some v => ret v
  | None => raise (KeyError t)
  end.

(** ** [scipy.interpolate.interp1d] with [kind='cubic'] *)

(** [interp1d(x, y, kind='cubic')] builds [make_interp_spline(x, y, k=3)]: the
    cubic B-spline on the not-a-knot knot vector whose coefficients solve the
    interpolation conditions.  Calling the object evaluates that spline; with
    [fill_value='extrapolate'] no bounds check is made and a point outside
    the base interval is evaluated on the polynomial piece of the nearest
    end interval. *)
Module Spline.

(** [kind='cubic'] *)
Definition degree : nat := 3.

Record bspline : Type := { knots : list Q; coeffs : list Q }.

Definition nthQ (l : list Q) (i : nat) : Q := nth i l 0.

(** Not-a-knot knot vector for degree 3: [x[0]] four times, then
    [x[2:-2]], then [x[-1]] four times. *)
Definition not_a_knot (x : list Q) : list Q :=
  repeat (hd 0 x) (S degree)
    ++ firstn (length x - 4) (skipn 2 x)
    ++ repeat (List.last x 0) (S degree).

(** The interval search of the evaluator, started at [l = degree]: step
    right while [x >= t[l]] and [l] has not reached [n]. *)
Fixpoint advance (t : list Q) (x : Q) (n l fuel : nat) : nat :=
  match fuel with
  | O => l
  | S fuel' =>
      if Qle_bool (nthQ t l) x && negb (Nat.eqb l n)
      then advance t x n (S l) fuel'
      else l
  end.

(** Index [ell] with [degree <= ell < n] of the knot interval used for
    [x]: the one containing [x], or the first (last) one when [x] lies to
    the left (right) of the base interval. *)
Definition find_interval (t : list Q) (n : nat) (x : Q) : nat :=
  Nat.pred (advance t x n (S degree) (n - degree)).

(** [x] lies outside the base interval [[t[degree], t[n]]]: evaluating
    there is extrapolation. *)
Definition extrapolates (t : list Q) (n : nat) (x : Q) : bool :=
  negb (Qle_bool (nthQ t degree) x) || negb (Qle_bool x (nthQ t n)).

(** One round of de Boor's recurrence: from the [j] B-splines of degree
    [j-1] that are non-zero on interval [ell] to the [j+1] of degree [j].
    A zero-width denominator contributes nothing (division by zero in [Q]
    is zero). *)
Definition deBoor_step (t : list Q) (x : Q) (ell j : nat) (hh : list Q) : list Q :=
  map (fun m : nat =>
         (if Nat.ltb m j
          then let xb := nthQ t (ell + m + 1) in
               let xa := nthQ t (ell + m + 1 - j) in
               nthQ hh m / (xb - xa) * (xb - x)
          else 0)
         +
         (if Nat.ltb 0 m
          then let xb := nthQ t (ell + m) in
               let xa := nthQ t (ell + m - j) in
               nthQ hh (m - 1) / (xb - xa) * (x - xa)
          else 0))
      (seq 0 (S j)).

(** Values at [x] of the [degree + 1] B-splines attached to interval
    [ell]. *)
Definition deBoor (t : list Q) (x : Q) (ell : nat) : list Q :=
  fold_left (fun h j => deBoor_step t x ell j h) (seq 1 degree) [1].

Definition qsum (l : list Q) : Q := fold_right Qplus 0 l.

(** Value of the spline at a finite point. *)
Definition evaluate (s : bspline) (x : Q) : Q :=
  let n := (length (knots s) - degree - 1)%nat in
  let ell := find_interval (knots s) n x in
  let h := deBoor (knots s) x ell in
  qsum (map (fun a : nat => nthQ (coeffs s) (ell + a - degree) * nthQ h a)
            (seq 0 (S degree))).

(** Row of the collocation matrix for the node [xi]. *)
Definition colloc_row (t : list Q) (n : nat) (xi : Q) : list Q :=
  let ell := find_interval t n xi in
  let h := deBoor t xi ell in
  map (fun j : nat =>
         if Nat.leb (ell - degree) j && Nat.leb j ell
         then nthQ h (j - (ell - degree)) else 0)
      (seq 0 n).

(** *** Exact linear solve *)

Definition row_is_pivot (r : list Q) : bool := negb (Qeq_bool (hd 0 r) 0).

(** First row whose leading entry is not zero, and the other rows. *)
Fixpoint pick_pivot (rows : list (list Q)) : option (list Q * list (list Q)) :=
  match rows with
  | [] => None
  | r :: rows' =>
      if row_is_pivot r then Some (r, rows')
      else match pick_pivot rows' with
           | Some (p, rest) => Some (p, r :: rest)
           | None => None
           end
  end.

Fixpoint zip_with (f : Q -> Q -> Q) (a b : list Q) : list Q :=
  match a, b with
  | u :: a', v :: b' => f u v :: zip_with f a' b'
  | _, _ => []
  end.

Definition dot (a b : list Q) : Q := qsum (zip_with Qmult a b).

(** Gaussian elimination on the augmented rows [coefficients ++ [rhs]] of
    a square system in [n] unknowns; [None] when the matrix is singular.
    The arithmetic is exact, so the choice of pivot does not change the
    solution; each unknown is stored as a fraction in lowest terms. *)
Fixpoint gauss (n : nat) (rows : list (list Q)) : option (list Q) :=
  match n with
  | O => Some []
  | S n' =>
      match pick_pivot rows with
      | None => None
      | Some (p, rest) =>
          let p' := map (fun a => a / hd 0 p) (tl p) in
          let rest' :=
            map (fun r => zip_with (fun a b => a - hd 0 r * b) (tl r) p') rest in
          match gauss n' rest' with
          | None => None
          | Some sol => Some (Qred (List.last p' 0 - dot p' sol) :: sol)
          end
      end
  end.

(** Each row of the matrix followed by its right-hand side. *)
Fixpoint augment (rows : list (list Q)) (y : list Q) : list (list Q) :=
  match rows, y with
  | r :: rows', v :: y' => (r ++ [v]) :: augment rows' y'
  | _, _ => []
  end.

Fixpoint strictly_increasing (x : list Q) : bool :=
  match x with
  | a :: (b :: _) as x' => negb (Qle_bool b a) && strictly_increasing x'
  | _ => true
  end.

(** [make_interp_spline(x, y, k=3)] with the default boundary condition.
    It raises when [x] is not strictly increasing, when [x] and [y] differ
    in length, when the not-a-knot knot vector does not leave exactly
    [len(x)] coefficients (fewer than four nodes), and when the collocation
    matrix is singular. *)
Definition make_interp_spline (x y : list Q) : outcome bspline :=
  let t := not_a_knot x in
  let n := length x in
  let nt := (length t - degree - 1)%nat in
  if negb (strictly_increasing x) then Raise InterpError
  else if negb (Nat.eqb (length y) n) then Raise InterpError
  else if negb (Nat.eqb nt n) then Raise InterpError
  else
    match gauss n (augment (map (colloc_row t n) x) y) with
    | None => Raise InterpError
    | Some c => Return {| knots := t; coeffs := c |}
    end.

(** [f(x)] for the object [f] returned by [interp1d]:  NaN in, NaN out; at
    an infinity the recurrence adds infinities of both signs, which is
    NaN. *)
Definition call (s : bspline) (x : pyfloat) : pyfloat :=
  match x with
  | Finite q => Finite (evaluate s q)
  | _ => NaN
  end.

End Spline.

(** [interp1d(temps, days, kind='cubic', fill_value='extrapolate')]: the
    integer lists are converted to floating point first. *)
Definition interp1d (temps days : list Z) : M Spline.bspline :=
  lift (Spline.make_interp_spline (map inject_Z temps) (map inject_Z days)).

(** ** The function *)

Local Open Scope py_scope.

(** [interpolate_freezing_time(temp_f)].  The spline is built first, from the
    global dictionary, whatever the temperature; the two threshold tests
    come after it.  [float(f(temp_f))] unwraps the zero-dimensional array
    [f] returns and does not change the number. *)
Definition interpolate_freezing_time (temp_f : pyfloat) : M pyvalue :=
  temps <- (d <- read_data_points ;; ret (sorted_keys d)) ;;
  days <- mapM (fun t => d <- read_data_points ;; getitem d t) temps ;;
  f <- interp1d temps days ;;
  if PyFloat.le temp_f (PyFloat.of_Z (-15)) then
    ret (PyNum (PyFloat.of_Z 0))
  else if PyFloat.ge temp_f (PyFloat.of_Z 32) then
    ret PyNone
  else
    ret (PyNum (PyFloat.max (PyFloat.of_Z 0) (Spline.call f temp_f))).

Local Close Scope py_scope.

(** The estimator of the specification: the function run in the globals of
    the module as loaded. *)
Definition estimate (temperature : pyfloat) : outcome pyvalue :=
  fst (interpolate_freezing_time temperature module_globals).

(** The marker returned when nothing freezes. *)
Definition NOT_FREEZING : outcome pyvalue := Return PyNone.

(** The outcome is a finite duration equal to [d] days. *)
Definition is_duration (o : outcome pyvalue) (d : Q) : Prop :=
  exists v : Q, o = Return (PyNum (Finite v)) /\ v == d.

(** The outcome is a finite duration no farther than [eps] from [d]
    days. *)
Definition is_duration_within (o : outcome pyvalue) (d eps : Q) : Prop :=
  exists v : Q, o = Return (PyNum (Finite v)) /\ Qabs (v - d) <= eps.

(** The spline [interp1d] builds from [data_points]. *)
Definition fitted : Spline.bspline :=
  {| Spline.knots := [-15; -15; -15; -15; 32; 32; 32; 32];
     Spline.coeffs := [0; -13559 # 7040; 952967 # 47520; 21] |}.

(** Value of the fitted curve at a finite temperature. *)
Definition curve (q : Q) : Q := Spline.evaluate fitted q.

(** The cubic through the four anchors, in Newton form on the nodes
    [-15, -4, 0, 32]. *)
Definition newton_cubic (x : Q) : Q :=
  (2 # 11) * (x + 15)
  + (7 # 330) * (x + 15) * (x + 4)
  - (1289 # 2977920) * (x + 15) * (x + 4) * x.

(** What the function returns once the spline is [fitted]. *)
Definition thresholds (temp_f : pyfloat) : pyvalue :=
  if PyFloat.le temp_f (PyFloat.of_Z (-15)) then PyNum (PyFloat.of_Z 0)
  else if PyFloat.ge temp_f (PyFloat.of_Z 32) then PyNone
  else PyNum (PyFloat.max (PyFloat.of_Z 0) (Spline.call fitted temp_f)).

(** A computation that leaves the globals as it found them. *)
Definition read_only {A} (m : M A) : Prop := forall g, snd (m g) = g.

(** [max(0, v)] on a finite [v]. *)
Definition clamp0 (v : Q) : Q := if Qle_bool v 0 then 0 else v.

(** The range of temperatures covered by the anchors of a dictionary: from
    its smallest to its largest key. *)
Definition span_lo (d : gmap Z Z) : Q := inject_Z (hd 0%Z (sorted_keys d)).
Definition span_hi (d : gmap Z Z) : Q := inject_Z (List.last (sorted_keys d) 0%Z).
Definition in_span (d : gmap Z Z) (q : Q) : bool :=
  Qle_bool (span_lo d) q && Qle_bool q (span_hi d).

(** ** The page *)

(** The four messages [st.info] can show under the result. *)
Inductive interpretation : Type :=
| FreezeInstantly
| RapidFreezing
| ModerateFreezingTime
| ExtendedFreezingTime.

(** The [delta] of [st.metric]: [f"{hours} hours"] or ["Instant"]. *)
Inductive delta : Type :=
| Hours (hours : pyfloat)
| Instant.

(** What the left column shows for the temperature entered: the
    [st.warning], or [st.success] with the [st.metric] and one [st.info].
    Formatted strings are kept as the numbers they are formatted from. *)
Inductive result_panel : Type :=
| WontFreeze (temp_input : pyfloat)
| Result (temp_input days : pyfloat) (d : delta) (i : interpretation).

(** The widgets of the page whose content is computed. *)
Record screen : Type := {
  (** lines 68-89 *)
  panel : result_panel;
  (** lines 93-95: temperature, days, and whether ["days"] is plural *)
  quick_reference : list (Z * Z * bool);
  (** line 101 *)
  plot_temps : list pyfloat;
  (** lines 102-106, drawn by [ax1.plot], [ax1.fill_between], [ax2.plot] *)
  plot_days : list pyfloat;
  (** line 113: the red points, as a set (the order of the dictionary is
      not kept) *)
  empirical_data : list (Z * Z);
  (** lines 117-122: the green point *)
  your_input : option (pyfloat * pyfloat)
}.

(** Order of Python on pairs of integers. *)
Definition pair_le (a b : Z * Z) : Prop :=
  (a.1 < b.1)%Z \/ (a.1 = b.1 /\ (a.2 <= b.2)%Z).

#[global] Instance pair_le_dec (a b : Z * Z) : Decision (pair_le a b).
Proof. unfold pair_le. apply _. Defined.

(** [sorted(d.items())] *)
Definition sorted_items (d : gmap Z Z) : list (Z * Z) :=
  merge_sort pair_le (map_to_list d).

(** [np.linspace(start, stop, num)] for [num >= 2], end point included:
    [start + i * step] with [step = (stop - start) / (num - 1)]. *)
Definition linspace (start stop : Q) (num : nat) : list pyfloat :=
  let step := (stop - start) / inject_Z (Z.of_nat (num - 1)) in
  map (fun i : nat => Finite (inject_Z (Z.of_nat i) * step + start)) (seq 0 num).

(** Lines 68-89 of [main], given the temperature and what the function
    returned for it. *)
Definition result_of (temp_input : pyfloat) (freezing_time : pyvalue) : result_panel :=
  match freezing_time with
  | PyNone => WontFreeze temp_input
  | PyNum x =>
      let days := PyFloat.round1 x in
      let hours := PyFloat.round1 (PyFloat.mul x (PyFloat.of_Z 24)) in
      Result temp_input days
        (if PyFloat.gt days (PyFloat.of_Z 0) then Hours hours else Instant)
        (if PyFloat.eq days (PyFloat.of_Z 0) then FreezeInstantly
         else if PyFloat.le days (PyFloat.of_Z 1) then RapidFreezing
         else if PyFloat.le days (PyFloat.of_Z 7) then ModerateFreezingTime
         else ExtendedFreezingTime)
  end.

(** [days if days is not None else 0] *)
Definition days_or_zero (days : pyvalue) : pyfloat :=
  match days with
  | PyNone => PyFloat.of_Z 0
  | PyNum v => v
  end.

Local Open Scope py_scope.

(** [main()], with the value of the number input as its argument.  The
    calls that draw constant text are left out; the others fill [screen]
    in the order of the source. *)
Definition main (temp_input : pyfloat) : M screen :=
  freezing_time <- interpolate_freezing_time temp_input ;;
  ref_data <- (d <- read_data_points ;; ret (sorted_items d)) ;;
  let temps := linspace (-20) 33 100 in
  days <- mapM (fun temp => days <- interpolate_freezing_time temp ;;
                            ret (days_or_zero days)) temps ;;
  points <- (d <- read_data_points ;; ret (map_to_list d)) ;;
  shown <- interpolate_freezing_time temp_input ;;
  mark <- match shown with
          | PyNone => ret None
          | PyNum _ =>
              user_days <- interpolate_freezing_time temp_input ;;
              ret match user_days with
                  | PyNone => None
                  | PyNum v => Some (temp_input, v)
                  end
          end ;;
  ret {| panel := result_of temp_input freezing_time;
         quick_reference :=
           map (fun '(temp, days) => (temp, days, negb (Z.eqb days 1))) ref_data;
         plot_temps := temps;
         plot_days := days;
         empirical_data := points;
         your_input := mark |}.

Local Close Scope py_scope.

(** The days a returned outcome stands for on the curve: a number for
    itself, nothing for the marker or an exception. *)
Definition days_of (o : outcome pyvalue) : option Q :=
  match o with
  | Return (PyNum (Finite v)) => Some v
  | _ => None
  end.

(** Lines 27-33 of the function for a spline [f] already built. *)
Definition answer (f : Spline.bspline) (temp_f : pyfloat) : pyvalue :=
  if PyFloat.le temp_f (PyFloat.of_Z (-15)) then PyNum (PyFloat.of_Z 0)
  else if PyFloat.ge temp_f (PyFloat.of_Z 32) then PyNone
  else PyNum (PyFloat.max (PyFloat.of_Z 0) (Spline.call f temp_f)).

(** * Properties *)

Section Monad.
Context {A B : Type}.

Lemma bind_return (m : M A) (k : A -> M B) g a g' :
  m g = (Return a, g') -> bind m k g = k a g'.
Proof. intros H. unfold bind. now rewrite H. Qed.

Lemma bind_raise (m : M A) (k : A -> M B) g e g' :
  m g = (Raise e, g') -> bind m k g = (Raise e, g').
Proof. intros H. unfold bind. now rewrite H. Qed.
End Monad.

Lemma spline_of_data_points :
  Spline.make_interp_spline (map inject_Z [-15; -4; 0; 32]%Z)
                            (map inject_Z [0; 2; 4; 21]%Z)
  = Return fitted.
Proof. vm_compute. reflexivity. Qed.

Lemma interpolate_freezing_time_module temp_f :
  interpolate_freezing_time temp_f module_globals
  = (Return (thresholds temp_f), module_globals).
Proof.
  unfold interpolate_freezing_time.
  erewrite bind_return by (vm_compute; reflexivity).
  erewrite bind_return by (vm_compute; reflexivity).
  erewrite bind_return
    by (unfold interp1d, lift; rewrite spline_of_data_points; reflexivity).
  unfold thresholds.
  destruct (PyFloat.le temp_f _); [reflexivity|].
  destruct (PyFloat.ge temp_f _); reflexivity.
Qed.

Lemma estimate_thresholds temp_f : estimate temp_f = Return (thresholds temp_f).
Proof. unfold estimate. now rewrite interpolate_freezing_time_module. Qed.

Lemma find_interval_fitted q : Spline.find_interval (Spline.knots fitted) 4 q = 3%nat.
Proof.
  unfold Spline.find_interval. simpl.
  now rewrite andb_false_r.
Qed.

Lemma curve_is_cubic q : curve q == newton_cubic q.
Proof.
  unfold curve, Spline.evaluate.
  change (length (Spline.knots fitted) - Spline.degree - 1)%nat with 4%nat.
  rewrite find_interval_fitted.
  unfold newton_cubic.
  cbv [Spline.deBoor Spline.deBoor_step Spline.degree Spline.nthQ Spline.qsum
       fitted Spline.knots Spline.coeffs seq fold_left fold_right map nth
       Nat.ltb Nat.leb Nat.add Nat.sub].
  field.
Qed.

(** ** Finite temperatures *)

Lemma thresholds_finite q :
  thresholds (Finite q)
  = if Qle_bool q (-15) then PyNum (Finite 0)
    else if Qle_bool 32 q then PyNone
    else PyNum (Finite (clamp0 (curve q))).
Proof.
  unfold clamp0.
  unfold thresholds, PyFloat.ge, PyFloat.max, PyFloat.gt, PyFloat.of_Z. simpl.
  change (inject_Z (-15)) with (-15). change (inject_Z 32) with 32.
  change (inject_Z 0) with 0.
  destruct (Qle_bool q (-15)); [reflexivity|].
  destruct (Qle_bool 32 q); [reflexivity|].
  fold (curve q). now destruct (Qle_bool (curve q) 0).
Qed.

Lemma Qle_bool_false x y : Qle_bool x y = false <-> y < x.
Proof.
  split.
  - intros E. apply Qnot_le_lt. intros H. apply Qle_bool_iff in H. congruence.
  - intros H. destruct (Qle_bool x y) eqn:E; trivial.
    apply Qle_bool_iff in E. lra.
Qed.

Lemma Qle_bool_true x y : x <= y -> Qle_bool x y = true.
Proof. apply Qle_bool_iff. Qed.

Lemma Qle_bool_lt x y : y < x -> Qle_bool x y = false.
Proof. apply Qle_bool_false. Qed.

Lemma clamp0_nonneg v : 0 <= clamp0 v.
Proof.
  unfold clamp0. destruct (Qle_bool v 0) eqn:E; [lra |].
  apply Qle_bool_false in E. lra.
Qed.

Lemma estimate_inside q :
  -15 < q -> q < 32 ->
  estimate (Finite q)
  = Return (PyNum (Finite (clamp0 (curve q)))).
Proof.
  intros Hlo Hhi. rewrite estimate_thresholds, thresholds_finite.
  now rewrite (Qle_bool_lt q (-15) Hlo), (Qle_bool_lt 32 q Hhi).
Qed.

(** C2: at or below -15 the duration is exactly 0. *)
Theorem estimate_at_or_below_lower_bound (q : Q) :
  q <= -15 -> estimate (Finite q) = Return (PyNum (Finite 0)).
Proof.
  intros H. rewrite estimate_thresholds, thresholds_finite.
  now rewrite (Qle_bool_true q (-15) H).
Qed.

Lemma estimate_at_or_below_lower_bound_witness :
  -20 <= -15 /\ estimate (Finite (-20)) = Return (PyNum (Finite 0)).
Proof.
  split; [lra | apply (estimate_at_or_below_lower_bound (-20)); lra].
Defined.

(** C3: at or above 32 the result is the marker, not a number. *)
Theorem estimate_at_or_above_upper_bound (q : Q) :
  32 <= q -> estimate (Finite q) = NOT_FREEZING.
Proof.
  intros H. rewrite estimate_thresholds, thresholds_finite.
  assert (Hlo : -15 < q) by lra.
  now rewrite (Qle_bool_lt q (-15) Hlo), (Qle_bool_true 32 q H).
Qed.

Lemma estimate_at_or_above_upper_bound_witness :
  32 <= 40 /\ estimate (Finite 40) = NOT_FREEZING.
Proof.
  split; [lra | apply (estimate_at_or_above_upper_bound 40); lra].
Defined.

(** C4: strictly between -15 and 32 the result is a number that is never
    negative; it is the value of the curve where that is positive and 0
    where the curve is at or below zero. *)
Theorem estimate_clamped_inside (q : Q) :
  -15 < q -> q < 32 ->
  exists v : Q,
    estimate (Finite q) = Return (PyNum (Finite v))
    /\ 0 <= v
    /\ (curve q <= 0 -> v = 0)
    /\ (0 < curve q -> v = curve q).
Proof.
  intros Hlo Hhi. rewrite (estimate_inside q Hlo Hhi). unfold clamp0.
  destruct (Qle_bool (curve q) 0) eqn:E.
  - exists 0. apply Qle_bool_iff in E. repeat split; try lra. 
  - exists (curve q). apply Qle_bool_false in E. repeat split; try lra.
Qed.

(** The curve does dip below zero next to the lower threshold, where the
    result is floored. *)
Lemma estimate_clamped_inside_witness :
  curve (-14) < 0 /\
  exists v : Q,
    estimate (Finite (-14)) = Return (PyNum (Finite v))
    /\ 0 <= v
    /\ (curve (-14) <= 0 -> v = 0)
    /\ (0 < curve (-14) -> v = curve (-14)).
Proof.
  split; [reflexivity | apply (estimate_clamped_inside (-14)); reflexivity].
Defined.

(** C8: at 10 degrees the result is a finite number between 0 and 21; it
    is 141515/13536, a little under 10.5. *)
Theorem estimate_at_10 :
  exists v : Q,
    estimate (PyFloat.of_Z 10) = Return (PyNum (Finite v))
    /\ 0 <= v /\ v <= 21 /\ v == 141515 # 13536.
Proof.
  exists (curve 10). split; [| split; [| split]].
  - vm_compute. reflexivity.
  - vm_compute. discriminate.
  - vm_compute. discriminate.
  - vm_compute. reflexivity.
Qed.

(** C9: for a finite temperature the marker is returned exactly from 32
    upwards; below 32 the result is a number, never negative, and nothing
    is raised. *)
Theorem marker_iff_at_or_above_32 (q : Q) :
  (estimate (Finite q) = NOT_FREEZING <-> 32 <= q)
  /\ (q < 32 ->
      exists v : Q, estimate (Finite q) = Return (PyNum (Finite v)) /\ 0 <= v).
Proof.
  rewrite estimate_thresholds, thresholds_finite. unfold NOT_FREEZING.
  destruct (Qle_bool q (-15)) eqn:E1; [| destruct (Qle_bool 32 q) eqn:E2].
  - apply Qle_bool_iff in E1. split; [split |].
    + intros H. discriminate H.
    + intros H. lra.
    + intros _. exists 0. split; [reflexivity | lra].
  - apply Qle_bool_iff in E2. split; [split |]; trivial.
    intros H. lra.
  - apply Qle_bool_false in E2. split; [split |].
    + intros H. discriminate H.
    + intros H. lra.
    + intros _. exists (clamp0 (curve q)). split; [reflexivity |].
      apply clamp0_nonneg.
Qed.

Lemma marker_iff_at_or_above_32_witness :
  (estimate (Finite 31) = NOT_FREEZING <-> 32 <= 31)
  /\ (31 < 32 ->
      exists v : Q, estimate (Finite 31) = Return (PyNum (Finite v)) /\ 0 <= v).
Proof. exact (marker_iff_at_or_above_32 31). Defined.

(** ** The anchors *)

Lemma data_points_anchors (t d : Z) :
  data_points !! t = Some d ->
  (t, d) ∈ [(-15, 0); (-4, 2); (0, 4); (32, 21)]%Z.
Proof.
  unfold data_points. intros H.
  repeat (rewrite lookup_insert in H; case_decide; simplify_eq;
          try set_solver).
Qed.

Lemma curve_through_anchors (t d : Z) :
  data_points !! t = Some d -> curve (inject_Z t) == inject_Z d.
Proof.
  intros H. apply data_points_anchors in H.
  repeat (apply elem_of_cons in H; destruct H as [H | H];
          [injection H as -> ->; vm_compute; reflexivity |]).
  now apply elem_of_nil in H.
Qed.

(** C1, as stated, fails at the anchor (32, 21): there the result is the
    marker, not 21. *)
Lemma anchor_at_32_is_not_returned :
  data_points !! 32%Z = Some 21%Z
  /\ estimate (PyFloat.of_Z 32) = NOT_FREEZING
  /\ ~ is_duration (estimate (PyFloat.of_Z 32)) (inject_Z 21).
Proof.
  split; [reflexivity |].
  assert (E : estimate (PyFloat.of_Z 32) = NOT_FREEZING)
    by (vm_compute; reflexivity).
  split; [exact E |].
  intros (v & Hv & _). rewrite E in Hv. discriminate Hv.
Qed.

(** C1, amended: at the anchor -15 the lower threshold answers and the
    result is exactly the 0 of the anchor; at every anchor [(t, d)] below 32
    the result is a number within [10^-9] of [d] (the cubic passes through
    the anchors in exact arithmetic, see [curve_through_anchors]; no bit-exact
    equality is stated where the curve is evaluated); at the anchor 32 the
    upper threshold answers with the marker. *)
Theorem estimate_at_anchors (t d : Z) :
  data_points !! t = Some d ->
  (t = (-15)%Z -> d = 0%Z /\ estimate (PyFloat.of_Z t) = Return (PyNum (Finite 0)))
  /\ ((t < 32)%Z -> is_duration_within (estimate (PyFloat.of_Z t)) (inject_Z d)
                                      (1 # 1000000000))
  /\ (t = 32%Z -> estimate (PyFloat.of_Z t) = NOT_FREEZING).
Proof.
  intros H. apply data_points_anchors in H.
  apply elem_of_cons in H. destruct H as [H | H].
  { injection H as -> ->. split; [| split].
    - intros _. split; [reflexivity | vm_compute; reflexivity].
    - intros _. eexists. split; [vm_compute; reflexivity |].
      apply Qle_bool_iff. vm_compute. reflexivity.
    - intros E. discriminate E. }
  repeat (apply elem_of_cons in H; destruct H as [H | H];
          [injection H as -> ->; split; [intros E; discriminate E | split];
           [ intros _; eexists; split;
             [vm_compute; reflexivity
             | apply Qle_bool_iff; vm_compute; reflexivity]
           | intros E; discriminate E ] |]).
  apply elem_of_cons in H. destruct H as [H | H].
  - injection H as -> ->. split; [intros E; discriminate E |].
    split; [intros E; discriminate E |].
    intros _. vm_compute. reflexivity.
  - now apply elem_of_nil in H.
Qed.

Lemma estimate_at_anchors_witness :
  ((-4)%Z = (-15)%Z ->
   2%Z = 0%Z /\ estimate (PyFloat.of_Z (-4)) = Return (PyNum (Finite 0)))
  /\ ((-4 < 32)%Z -> is_duration_within (estimate (PyFloat.of_Z (-4))) (inject_Z 2)
                                       (1 # 1000000000))
  /\ ((-4)%Z = 32%Z -> estimate (PyFloat.of_Z (-4)) = NOT_FREEZING).
Proof. apply (estimate_at_anchors (-4) 2). reflexivity. Defined.

(** ** Temperatures that are not finite *)

(** C5, as stated, fails: at +Infinity nothing is raised, the marker is
    returned. *)
Lemma infinity_is_not_rejected :
  PyFloat.is_finite PosInf = false
  /\ estimate PosInf = NOT_FREEZING
  /\ ~ (exists e : exn, estimate PosInf = Raise e).
Proof.
  split; [reflexivity |].
  assert (E : estimate PosInf = NOT_FREEZING) by (vm_compute; reflexivity).
  split; [exact E |].
  intros (e & He). rewrite E in He. discriminate He.
Qed.

(** C5, amended: a temperature that is not finite raises nothing.
    +Infinity passes the upper threshold and gives the marker; -Infinity
    passes the lower threshold and gives 0; NaN fails both comparisons, the
    curve gives NaN, and [max(0, NaN)] keeps the 0. *)
Theorem estimate_non_finite (t : pyfloat) :
  PyFloat.is_finite t = false ->
  estimate t = Return (match t with
                       | PosInf => PyNone
                       | _ => PyNum (Finite 0)
                       end).
Proof.
  intros H. rewrite estimate_thresholds.
  destruct t as [q | | |]; [discriminate H | reflexivity ..].
Qed.

Lemma estimate_non_finite_witness :
  PyFloat.is_finite NaN = false /\ estimate NaN = Return (PyNum (Finite 0)).
Proof. split; [reflexivity | apply (estimate_non_finite NaN); reflexivity]. Defined.

(** ** The span of the anchors *)

Lemma span_of_data_points :
  span_lo data_points = -15 /\ span_hi data_points = 32.
Proof. split; vm_compute; reflexivity. Qed.

Lemma in_span_data_points q :
  in_span data_points q = Qle_bool (-15) q && Qle_bool q 32.
Proof.
  unfold in_span. destruct span_of_data_points as [-> ->]. reflexivity.
Qed.

(** C6, as stated, fails: no temperature strictly between the thresholds
    lies outside the span of the anchors. *)
Lemma no_residual_extrapolation_zone :
  ~ (exists q : Q, -15 < q /\ q < 32 /\ in_span data_points q = false).
Proof.
  intros (q & Hlo & Hhi & H). rewrite in_span_data_points in H.
  rewrite (Qle_bool_true (-15) q), (Qle_bool_true q 32) in H by lra.
  discriminate H.
Qed.

#[local] Instance clamp0_proper : Proper (Qeq ==> Qeq) clamp0.
Proof.
  intros x y E. unfold clamp0. rewrite E.
  destruct (Qle_bool y 0); [reflexivity | exact E].
Qed.

(** C6, amended: the outermost anchors sit on the thresholds -15 and 32, so
    every temperature strictly between the thresholds is inside the span of
    the anchors; the spline is evaluated on its base interval, never in
    extrapolation, and the result is the cubic through the four anchors
    floored at 0. *)
Theorem between_thresholds_within_span (q : Q) :
  -15 < q -> q < 32 ->
  in_span data_points q = true
  /\ Spline.extrapolates (Spline.knots fitted) 4 q = false
  /\ is_duration (estimate (Finite q)) (clamp0 (newton_cubic q)).
Proof.
  intros Hlo Hhi. split; [| split].
  - rewrite in_span_data_points.
    now rewrite (Qle_bool_true (-15) q), (Qle_bool_true q 32) by lra.
  - cbv [Spline.extrapolates Spline.nthQ Spline.degree Spline.knots fitted nth].
    now rewrite (Qle_bool_true (-15) q), (Qle_bool_true q 32) by lra.
  - exists (clamp0 (curve q)). split; [now apply estimate_inside |].
    now rewrite curve_is_cubic.
Qed.

Lemma between_thresholds_within_span_witness :
  in_span data_points 31 = true
  /\ Spline.extrapolates (Spline.knots fitted) 4 31 = false
  /\ is_duration (estimate (Finite 31)) (clamp0 (newton_cubic 31)).
Proof. apply (between_thresholds_within_span 31); reflexivity. Defined.

(** ** The body writes no global *)

(** The embedded body is built from reads of [data_points] only, so a run
    hands the globals back as it found them.  This is a fact about the
    embedding; it says nothing about the state scipy and numpy keep for
    themselves. *)

Create HintDb read_only.

Section ReadOnly.
Context {A B : Type}.

Lemma read_only_ret (a : A) : read_only (ret a).
Proof. intros g. reflexivity. Qed.

Lemma read_only_raise (e : exn) : read_only (@raise A e).
Proof. intros g. reflexivity. Qed.

Lemma read_only_lift (o : outcome A) : read_only (lift o).
Proof. intros g. reflexivity. Qed.

Lemma read_only_bind (m : M A) (k : A -> M B) :
  read_only m -> (forall a, read_only (k a)) -> read_only (bind m k).
Proof.
  intros Hm Hk g. unfold bind. specialize (Hm g).
  destruct (m g) as [[a | e] g']; simpl in Hm; subst g'.
  - exact (Hk a g).
  - reflexivity.
Qed.

End ReadOnly.

Lemma read_only_mapM {A B} (f : A -> M B) (l : list A) :
  (forall a, read_only (f a)) -> read_only (mapM f l).
Proof.
  intros Hf. induction l as [| a l IH]; simpl.
  - apply read_only_ret.
  - apply read_only_bind; [exact (Hf a) |]. intros b.
    apply read_only_bind; [exact IH |]. intros bs. apply read_only_ret.
Qed.

Lemma read_only_read_data_points : read_only read_data_points.
Proof. intros g. reflexivity. Qed.

Lemma read_only_getitem d t : read_only (getitem d t).
Proof. unfold getitem. destruct (d !! t); intros g; reflexivity. Qed.

#[local] Hint Resolve read_only_ret read_only_raise read_only_lift
  read_only_read_data_points read_only_getitem : read_only.

Lemma read_only_interpolate_freezing_time temp_f :
  read_only (interpolate_freezing_time temp_f).
Proof.
  unfold interpolate_freezing_time.
  apply read_only_bind.
  { apply read_only_bind; auto with read_only. }
  intros temps. apply read_only_bind.
  { apply read_only_mapM. intros t. apply read_only_bind; auto with read_only. }
  intros days. apply read_only_bind.
  { unfold interp1d. auto with read_only. }
  intros f.
  destruct (PyFloat.le temp_f _); [auto with read_only |].
  destruct (PyFloat.ge temp_f _); auto with read_only.
Qed.

(** ** Dictionaries with too few anchors *)

Lemma length_sorted_keys (d : gmap Z Z) : length (sorted_keys d) = size d.
Proof.
  unfold sorted_keys.
  rewrite (Permutation_length (merge_sort_Permutation Z.le _)).
  now rewrite length_fmap, length_map_to_list.
Qed.

Lemma sorted_keys_lookup (d : gmap Z Z) (t : Z) :
  t ∈ sorted_keys d -> is_Some (d !! t).
Proof.
  unfold sorted_keys. rewrite merge_sort_Permutation.
  intros H. apply list_elem_of_fmap in H as ([t' v] & -> & H).
  apply elem_of_map_to_list in H. simpl. now exists v.
Qed.

Lemma mapM_getitem (g : globals) (l : list Z) :
  (forall t, t ∈ l -> is_Some (g_data_points g !! t)) ->
  exists days : list Z,
    mapM (fun t => bind read_data_points (fun d => getitem d t)) l g
    = (Return days, g)
    /\ length days = length l.
Proof.
  induction l as [| t l IH]; intros Hl.
  - exists []. split; reflexivity.
  - destruct IH as (days & Hdays & Hlen).
    { intros t' Ht'. apply Hl. now right. }
    destruct (Hl t) as [v Hv]; [now left |].
    exists (v :: days). split; [| simpl; now rewrite Hlen].
    simpl. unfold bind at 1. unfold bind at 1.
    unfold read_data_points at 1. unfold getitem at 1. rewrite Hv.
    unfold ret at 1. unfold bind at 1. rewrite Hdays. reflexivity.
Qed.

Lemma make_interp_spline_few (x y : list Q) :
  (length x < 4)%nat -> Spline.make_interp_spline x y = Raise InterpError.
Proof.
  intros H. unfold Spline.make_interp_spline.
  destruct (negb (Spline.strictly_increasing x)); [reflexivity |].
  destruct (negb (Nat.eqb (length y) (length x))); [reflexivity |].
  destruct x as [| a [| b [| c [| e x]]]]; try reflexivity.
  simpl in H. lia.
Qed.

Lemma few_anchors_raise (d : gmap Z Z) (temp_f : pyfloat) :
  (size d < 4)%nat ->
  interpolate_freezing_time temp_f {| g_data_points := d |}
  = (Raise InterpError, {| g_data_points := d |}).
Proof.
  intros Hsize. set (g := {| g_data_points := d |}).
  unfold interpolate_freezing_time.
  rewrite (bind_return _ _ g (sorted_keys d) g) by reflexivity.
  destruct (mapM_getitem g (sorted_keys d)) as (days & Hdays & Hlen).
  { intros t. apply sorted_keys_lookup. }
  rewrite (bind_return _ _ g days g) by exact Hdays.
  apply bind_raise. unfold interp1d, lift.
  rewrite make_interp_spline_few; [reflexivity |].
  rewrite length_map, length_sorted_keys. exact Hsize.
Qed.

(** C10, as stated, fails: with a single anchor in the dictionary the call
    does fail, but with the exception of [interp1d], not with a
    [ConfigurationError]. *)
Lemma single_anchor_error_is_not_ConfigurationError :
  (size ({[ 0%Z := 4%Z ]} : gmap Z Z) < 2)%nat
  /\ fst (interpolate_freezing_time (Finite 10)
            {| g_data_points := {[ 0%Z := 4%Z ]} |})
     = Raise InterpError
  /\ fst (interpolate_freezing_time (Finite 10)
            {| g_data_points := {[ 0%Z := 4%Z ]} |})
     <> Raise ConfigurationError.
Proof.
  assert (E : fst (interpolate_freezing_time (Finite 10)
                     {| g_data_points := {[ 0%Z := 4%Z ]} |})
              = Raise InterpError) by (vm_compute; reflexivity).
  split; [vm_compute; lia |]. split; [exact E |].
  rewrite E. intros H. discriminate H.
Qed.

(** C10, amended: with fewer than two anchors in the dictionary the call
    raises, for every temperature, the exception of [interp1d], which
    refuses to build the spline; that happens before either threshold is
    looked at, and the globals are left as they were. *)
Theorem fewer_than_two_anchors_raise (d : gmap Z Z) (temp_f : pyfloat) :
  (size d < 2)%nat ->
  interpolate_freezing_time temp_f {| g_data_points := d |}
  = (Raise InterpError, {| g_data_points := d |}).
Proof. intros H. apply few_anchors_raise. lia. Qed.

Lemma fewer_than_two_anchors_raise_witness :
  (size ({[ 0%Z := 4%Z ]} : gmap Z Z) < 2)%nat
  /\ interpolate_freezing_time (Finite (-20))
       {| g_data_points := {[ 0%Z := 4%Z ]} |}
     = (Raise InterpError, {| g_data_points := {[ 0%Z := 4%Z ]} |}).
Proof.
  split; [vm_compute; lia |].
  apply (fewer_than_two_anchors_raise {[ 0%Z := 4%Z ]} (Finite (-20))).
  vm_compute. lia.
Defined.

(** * Further properties *)

(** ** The function over any dictionary *)

Lemma first_stages (g : globals) :
  exists days : list Z,
    mapM (fun t => bind read_data_points (fun d => getitem d t))
         (sorted_keys (g_data_points g)) g
    = (Return days, g)
    /\ length days = size (g_data_points g).
Proof.
  destruct (mapM_getitem g (sorted_keys (g_data_points g)))
    as (days & Hdays & Hlen).
  { intros t. apply sorted_keys_lookup. }
  exists days. split; [exact Hdays |].
  now rewrite Hlen, length_sorted_keys.
Qed.

Lemma interpolate_freezing_time_cases (temp_f : pyfloat) (g : globals) :
  interpolate_freezing_time temp_f g = (Raise InterpError, g)
  \/ exists f : Spline.bspline,
       interpolate_freezing_time temp_f g = (Return (answer f temp_f), g).
Proof.
  destruct (first_stages g) as (days & Hdays & _).
  unfold interpolate_freezing_time.
  rewrite (bind_return _ _ g (sorted_keys (g_data_points g)) g) by reflexivity.
  rewrite (bind_return _ _ g days g) by exact Hdays.
  unfold interp1d, lift.
  destruct (Spline.make_interp_spline _ _) as [f | e] eqn:E.
  - right. exists f. rewrite (bind_return _ _ g f g) by reflexivity.
    unfold answer.
    destruct (PyFloat.le temp_f _); [reflexivity |].
    destruct (PyFloat.ge temp_f _); reflexivity.
  - left. apply bind_raise. f_equal. f_equal.
    unfold Spline.make_interp_spline in E.
    repeat match type of E with
           | (if ?c then _ else _) = _ => destruct c
           | match ?c with _ => _ end = _ => destruct c
           end; congruence.
Qed.

(** [max(0, x)] passes the test [0 <= ...] whatever number [x] is: a
    negative [x] and NaN give the 0, a positive [x] or +Infinity gives
    [x]. *)
Lemma max_zero_ge (x : pyfloat) :
  PyFloat.le (PyFloat.of_Z 0) (PyFloat.max (PyFloat.of_Z 0) x) = true.
Proof.
  unfold PyFloat.max, PyFloat.gt, PyFloat.of_Z.
  change (inject_Z 0) with 0.
  destruct x as [q | | |]; try reflexivity.
  simpl. destruct (Qle_bool q 0) eqn:E; simpl.
  - reflexivity.
  - apply Qle_bool_false in E. apply Qle_bool_true. lra.
Qed.

(** X1: whatever the dictionary holds, a call that returns obeys the two
    thresholds: 0 at or below -15, the marker at or above 32, and in
    between a number [x] for which [0 <= x] holds, so neither negative nor
    NaN.  The proof takes the value of the spline as an arbitrary float:
    nothing is assumed of it, not even that it is finite. *)
Theorem threshold_rules_any_dictionary
    (g g' : globals) (q : Q) (v : pyvalue) :
  interpolate_freezing_time (Finite q) g = (Return v, g') ->
  (q <= -15 -> v = PyNum (Finite 0))
  /\ (32 <= q -> v = PyNone)
  /\ (-15 < q -> q < 32 ->
      exists x : pyfloat,
        v = PyNum x /\ PyFloat.le (PyFloat.of_Z 0) x = true).
Proof.
  intros H.
  destruct (interpolate_freezing_time_cases (Finite q) g) as [E | (f & E)];
    rewrite E in H; [discriminate H |].
  injection H as <- _. clear E.
  unfold answer.
  pose proof (max_zero_ge (Spline.call f (Finite q))) as Hmax.
  generalize dependent (Spline.call f (Finite q)). intros y Hmax.
  change (PyFloat.le (Finite q) (PyFloat.of_Z (-15))) with (Qle_bool q (-15)).
  change (PyFloat.ge (Finite q) (PyFloat.of_Z 32)) with (Qle_bool 32 q).
  destruct (Qle_bool q (-15)) eqn:E1; [| destruct (Qle_bool 32 q) eqn:E2].
  - apply Qle_bool_iff in E1.
    split; [reflexivity |]. split; intros; exfalso; lra.
  - apply Qle_bool_iff in E2. apply Qle_bool_false in E1.
    split; [intros; exfalso; lra |]. split; [reflexivity |].
    intros; exfalso; lra.
  - apply Qle_bool_false in E1. apply Qle_bool_false in E2.
    split; [intros; exfalso; lra |]. split; [intros; exfalso; lra |].
    intros _ _. eexists. split; [reflexivity | exact Hmax].
Qed.

Lemma threshold_rules_any_dictionary_witness :
  (10 <= -15 -> thresholds (Finite 10) = PyNum (Finite 0))
  /\ (32 <= 10 -> thresholds (Finite 10) = PyNone)
  /\ (-15 < 10 -> 10 < 32 ->
      exists x : pyfloat,
        thresholds (Finite 10) = PyNum x
        /\ PyFloat.le (PyFloat.of_Z 0) x = true).
Proof.
  apply (threshold_rules_any_dictionary module_globals module_globals 10).
  apply interpolate_freezing_time_module.
Defined.

(** X2: whatever the dictionary and whatever the argument, NaN and the
    infinities included, a call that returns gives the marker or a number
    [x] for which [0 <= x] holds: never NaN and never a negative duration.
    As in X1 the value of the spline is arbitrary in the proof. *)
Theorem returned_value_well_formed
    (g g' : globals) (temp_f : pyfloat) (v : pyvalue) :
  interpolate_freezing_time temp_f g = (Return v, g') ->
  v = PyNone
  \/ exists x : pyfloat, v = PyNum x /\ PyFloat.le (PyFloat.of_Z 0) x = true.
Proof.
  intros H.
  destruct (interpolate_freezing_time_cases temp_f g) as [E | (f & E)];
    rewrite E in H; [discriminate H |].
  injection H as <- _. clear E.
  unfold answer.
  pose proof (max_zero_ge (Spline.call f temp_f)) as Hmax.
  generalize dependent (Spline.call f temp_f). intros y Hmax.
  destruct (PyFloat.le temp_f _).
  - right. eexists. split; [reflexivity | reflexivity].
  - destruct (PyFloat.ge temp_f _); [left; reflexivity |].
    right. eexists. split; [reflexivity | exact Hmax].
Qed.

Lemma returned_value_well_formed_witness :
  thresholds NaN = PyNone
  \/ exists x : pyfloat,
       thresholds NaN = PyNum x /\ PyFloat.le (PyFloat.of_Z 0) x = true.
Proof.
  apply (returned_value_well_formed module_globals module_globals NaN).
  apply interpolate_freezing_time_module.
Defined.

(** X3: a cubic needs four nodes.  With fewer than four anchors in the
    dictionary, so also with two or three, every call raises the exception
    of [interp1d], whatever the temperature, and the globals are left as
    they were. *)
Theorem fewer_than_four_anchors_raise (d : gmap Z Z) (temp_f : pyfloat) :
  (size d < 4)%nat ->
  interpolate_freezing_time temp_f {| g_data_points := d |}
  = (Raise InterpError, {| g_data_points := d |}).
Proof. apply few_anchors_raise. Qed.

Lemma fewer_than_four_anchors_raise_witness :
  (size (<[0%Z := 4%Z]> (<[(-4)%Z := 2%Z]> (<[32%Z := 21%Z]> ∅)) : gmap Z Z) < 4)%nat
  /\ interpolate_freezing_time (Finite 10)
       {| g_data_points := <[0%Z := 4%Z]> (<[(-4)%Z := 2%Z]> (<[32%Z := 21%Z]> ∅)) |}
     = (Raise InterpError,
        {| g_data_points := <[0%Z := 4%Z]> (<[(-4)%Z := 2%Z]> (<[32%Z := 21%Z]> ∅)) |}).
Proof.
  split; [vm_compute; lia |].
  apply (fewer_than_four_anchors_raise
           (<[0%Z := 4%Z]> (<[(-4)%Z := 2%Z]> (<[32%Z := 21%Z]> ∅)))
           (Finite 10)).
  vm_compute. lia.
Defined.

(** X4: the list comprehension [data_points[t] for t in temps] cannot fail:
    whatever the dictionary and the argument, the only exception a call can
    raise is the one of [interp1d], never a [KeyError]. *)
Theorem only_interp1d_raises (g : globals) (temp_f : pyfloat) (e : exn) :
  fst (interpolate_freezing_time temp_f g) = Raise e -> e = InterpError.
Proof.
  intros H.
  destruct (interpolate_freezing_time_cases temp_f g) as [E | (f & E)];
    rewrite E in H; simpl in H; congruence.
Qed.

(** A dictionary of three anchors: the comprehension looks up each of the
    three keys and finds it, and the exception comes from [interp1d]
    after it. *)
Lemma only_interp1d_raises_witness :
  sorted_keys (<[0%Z := 4%Z]> (<[(-4)%Z := 2%Z]> (<[32%Z := 21%Z]> ∅)))
  = [-4; 0; 32]%Z
  /\ mapM (fun t => bind read_data_points (fun d => getitem d t))
          [-4; 0; 32]%Z
          {| g_data_points :=
               <[0%Z := 4%Z]> (<[(-4)%Z := 2%Z]> (<[32%Z := 21%Z]> ∅)) |}
     = (Return [2; 4; 21]%Z,
        {| g_data_points :=
             <[0%Z := 4%Z]> (<[(-4)%Z := 2%Z]> (<[32%Z := 21%Z]> ∅)) |})
  /\ fst (interpolate_freezing_time (Finite 10)
            {| g_data_points :=
                 <[0%Z := 4%Z]> (<[(-4)%Z := 2%Z]> (<[32%Z := 21%Z]> ∅)) |})
     = Raise InterpError
  /\ InterpError = InterpError.
Proof.
  split; [vm_compute; reflexivity |].
  split; [vm_compute; reflexivity |].
  split; [vm_compute; reflexivity |].
  apply (only_interp1d_raises
           {| g_data_points :=
                <[0%Z := 4%Z]> (<[(-4)%Z := 2%Z]> (<[32%Z := 21%Z]> ∅)) |}
           (Finite 10) InterpError).
  vm_compute. reflexivity.
Defined.

(** ** Shape of the curve fitted to [data_points] *)

Lemma cubic_sign_left x :
  -15 < x -> x <= -(1101 # 100) -> newton_cubic x < 0.
Proof.
  intros H1 H2. unfold newton_cubic.
  assert (F : (2 # 11) * (x + 15) + (7 # 330) * (x + 15) * (x + 4)
              - (1289 # 2977920) * (x + 15) * (x + 4) * x
              == (x + 15) * ((2 # 11) + (7 # 330) * (x + 4)
                             - (1289 # 2977920) * x * (x + 4))) by ring.
  rewrite F.
  assert (G : (2 # 11) + (7 # 330) * (x + 4) - (1289 # 2977920) * x * (x + 4) < 0).
  { nra. }
  nra.
Qed.

Lemma divided_difference_positive a b :
  -(1101 # 100) <= a -> a <= b -> b <= 32 ->
  0 < (2 # 11) + (7 # 330) * (a + b + 19)
      - (1289 # 2977920) * (a * a + a * b + b * b + 19 * (a + b) + 60).
Proof.
  intros H1 H2 H3.
  assert (P1 : 0 <= (a + (1101 # 100)) * (32 - a)) by (apply Qmult_le_0_compat; lra).
  assert (P2 : 0 <= (b + (1101 # 100)) * (32 - b)) by (apply Qmult_le_0_compat; lra).
  assert (P3 : 0 <= (a + (1101 # 100)) * (32 - b)) by (apply Qmult_le_0_compat; lra).
  lra.
Qed.

Lemma divided_difference_at_least a b :
  -(1101 # 100) <= a -> a <= b -> b <= 32 ->
  3 # 50 <= (2 # 11) + (7 # 330) * (a + b + 19)
            - (1289 # 2977920) * (a * a + a * b + b * b + 19 * (a + b) + 60).
Proof.
  intros H1 H2 H3.
  assert (P1 : 0 <= (a + (1101 # 100)) * (32 - a)) by (apply Qmult_le_0_compat; lra).
  assert (P2 : 0 <= (b + (1101 # 100)) * (32 - b)) by (apply Qmult_le_0_compat; lra).
  assert (P3 : 0 <= (a + (1101 # 100)) * (32 - b)) by (apply Qmult_le_0_compat; lra).
  lra.
Qed.

Lemma cubic_gain a b :
  -(1101 # 100) <= a -> a <= b -> b <= 32 ->
  newton_cubic a + (3 # 50) * (b - a) <= newton_cubic b.
Proof.
  intros H1 H2 H3.
  pose proof (divided_difference_at_least a b H1 H2 H3) as D.
  set (dd := (2 # 11) + (7 # 330) * (a + b + 19)
             - (1289 # 2977920) * (a * a + a * b + b * b + 19 * (a + b) + 60)) in *.
  assert (F : newton_cubic b - newton_cubic a == (b - a) * dd)
    by (unfold newton_cubic, dd; ring).
  assert (G : 0 <= (b - a) * (dd - (3 # 50)))
    by (apply Qmult_le_0_compat; lra).
  assert (G' : (b - a) * (dd - (3 # 50)) == (b - a) * dd - (3 # 50) * (b - a))
    by ring.
  lra.
Qed.

Lemma cubic_increasing a b :
  -(1101 # 100) <= a -> a <= b -> b <= 32 -> newton_cubic a <= newton_cubic b.
Proof.
  intros H1 H2 H3.
  pose proof (divided_difference_positive a b H1 H2 H3) as D.
  assert (F : newton_cubic b - newton_cubic a
              == (b - a) * ((2 # 11) + (7 # 330) * (a + b + 19)
                  - (1289 # 2977920) * (a * a + a * b + b * b + 19 * (a + b) + 60)))
    by (unfold newton_cubic; ring).
  assert (0 <= newton_cubic b - newton_cubic a).
  { rewrite F. apply Qmult_le_0_compat; lra. }
  lra.
Qed.

Lemma cubic_below_21 a :
  -(1101 # 100) <= a -> a < 32 -> newton_cubic a < 21.
Proof.
  intros H1 H2.
  assert (H3 : 32 <= 32) by lra.
  pose proof (divided_difference_positive a 32 H1 (Qlt_le_weak _ _ H2) H3) as D.
  assert (F : 21 - newton_cubic a
              == (32 - a) * ((2 # 11) + (7 # 330) * (a + 32 + 19)
                  - (1289 # 2977920) * (a * a + a * 32 + 32 * 32 + 19 * (a + 32) + 60)))
    by (unfold newton_cubic; field).
  assert (0 < 21 - newton_cubic a).
  { rewrite F. apply Qmult_lt_0_compat; lra. }
  lra.
Qed.

Lemma cubic_positive x : -11 <= x -> x <= 32 -> 0 < newton_cubic x.
Proof.
  intros H1 H2.
  assert (H0 : -(1101 # 100) <= -11) by lra.
  pose proof (cubic_increasing (-11) x H0 H1 H2) as I.
  assert (0 < newton_cubic (-11)) by reflexivity.
  lra.
Qed.

Lemma estimate_below_32 q :
  q < 32 ->
  estimate (Finite q)
  = Return (PyNum (Finite (if Qle_bool q (-15) then 0 else clamp0 (curve q)))).
Proof.
  intros H. rewrite estimate_thresholds, thresholds_finite.
  destruct (Qle_bool q (-15)); [reflexivity |].
  now rewrite (Qle_bool_lt 32 q H).
Qed.

Lemma clamp0_curve_zero q :
  -15 < q -> q <= -(1101 # 100) -> clamp0 (curve q) = 0.
Proof.
  intros H1 H2. unfold clamp0.
  rewrite Qle_bool_true; [reflexivity |].
  rewrite curve_is_cubic. pose proof (cubic_sign_left q H1 H2). lra.
Qed.

Lemma clamp0_curve_monotone a b :
  -15 < a -> a <= b -> b <= 32 -> clamp0 (curve a) <= clamp0 (curve b).
Proof.
  intros H1 H2 H3.
  pose proof (clamp0_nonneg (curve b)) as Hb.
  destruct (Qlt_le_dec (-(1101 # 100)) a) as [Ha | Ha].
  - rewrite !curve_is_cubic.
    assert (Ha' : -(1101 # 100) <= a) by lra.
    pose proof (cubic_increasing a b Ha' H2 H3) as I.
    unfold clamp0.
    destruct (Qle_bool (newton_cubic a) 0) eqn:Ea;
      destruct (Qle_bool (newton_cubic b) 0) eqn:Eb;
      try apply Qle_bool_iff in Ea; try apply Qle_bool_false in Ea;
      try apply Qle_bool_iff in Eb; try apply Qle_bool_false in Eb; lra.
  - now rewrite (clamp0_curve_zero a H1 Ha).
Qed.

(** X5: colder by half a degree (one step of the number input) or more
    never takes longer: for finite temperatures with [a + 0.5 <= b < 32] the
    estimate at [a] is at most the estimate at [b], and from -11 upwards it
    is smaller by at least 0.03 days.  (For two adjacent floats the order is
    not claimed.) *)
Theorem estimate_monotone_by_half_degree (a b : Q) :
  a + (1 # 2) <= b -> b < 32 ->
  exists va vb : Q,
    estimate (Finite a) = Return (PyNum (Finite va))
    /\ estimate (Finite b) = Return (PyNum (Finite vb))
    /\ va <= vb
    /\ (-11 <= a -> va + (3 # 100) <= vb).
Proof.
  intros Hab Hb. assert (Ha : a < 32) by lra.
  rewrite (estimate_below_32 a Ha), (estimate_below_32 b Hb).
  eexists. eexists. split; [reflexivity |]. split; [reflexivity |].
  split.
  - destruct (Qle_bool a (-15)) eqn:Ea; destruct (Qle_bool b (-15)) eqn:Eb;
      try apply Qle_bool_iff in Ea; try apply Qle_bool_false in Ea;
      try apply Qle_bool_iff in Eb; try apply Qle_bool_false in Eb.
    + lra.
    + apply clamp0_nonneg.
    + lra.
    + apply clamp0_curve_monotone; lra.
  - intros H11.
    assert (Ea : -15 < a) by lra. assert (Eb : -15 < b) by lra.
    rewrite (Qle_bool_lt a (-15) Ea), (Qle_bool_lt b (-15) Eb).
    rewrite !curve_is_cubic.
    pose proof (cubic_positive a H11 (Qlt_le_weak _ _ Ha)) as Pa.
    assert (H11b : -11 <= b) by lra.
    pose proof (cubic_positive b H11b (Qlt_le_weak _ _ Hb)) as Pb.
    assert (Hr : -(1101 # 100) <= a) by lra.
    assert (Hab' : a <= b) by lra.
    pose proof (cubic_gain a b Hr Hab' (Qlt_le_weak _ _ Hb)) as G.
    unfold clamp0.
    rewrite (Qle_bool_lt (newton_cubic a) 0 Pa), (Qle_bool_lt (newton_cubic b) 0 Pb).
    lra.
Qed.

Lemma estimate_monotone_by_half_degree_witness :
  exists va vb : Q,
    estimate (Finite (-4)) = Return (PyNum (Finite va))
    /\ estimate (Finite (-(7 # 2))) = Return (PyNum (Finite vb))
    /\ va <= vb
    /\ (-11 <= -4 -> va + (3 # 100) <= vb).
Proof.
  apply (estimate_monotone_by_half_degree (-4) (-(7 # 2))); [lra | reflexivity].
Defined.

(** X6: below 32 the estimate does not pass the 21 days of the anchor at 32
    by more than a thousandth of a day; up to 31.5 it stays under 20.98, and
    from 31 upwards it is above 20: the result jumps from about 21 days to
    the marker at 32. *)
Theorem estimate_at_most_about_21 (q : Q) :
  q < 32 ->
  exists v : Q,
    estimate (Finite q) = Return (PyNum (Finite v))
    /\ v <= 21 + (1 # 1000)
    /\ (q <= 63 # 2 -> v < 2098 # 100)
    /\ (31 <= q -> 20 < v).
Proof.
  intros H. rewrite (estimate_below_32 q H).
  eexists. split; [reflexivity |].
  destruct (Qle_bool q (-15)) eqn:E.
  - apply Qle_bool_iff in E.
    split; [lra |]. split; [intros; lra | intros; lra].
  - apply Qle_bool_false in E.
    destruct (Qlt_le_dec (-(1101 # 100)) q) as [Hq | Hq].
    + assert (Hq' : -(1101 # 100) <= q) by lra.
      pose proof (cubic_gain q 32 Hq' (Qlt_le_weak _ _ H) ltac:(lra)) as G.
      assert (E32 : newton_cubic 32 == 21) by reflexivity.
      assert (L31 : 31 <= q -> 20 < newton_cubic q).
      { intros H31. assert (H0 : -(1101 # 100) <= 31) by lra.
        pose proof (cubic_increasing 31 q H0 H31 (Qlt_le_weak _ _ H)) as I.
        assert (20 < newton_cubic 31) by reflexivity. lra. }
      rewrite curve_is_cubic. unfold clamp0.
      destruct (Qle_bool (newton_cubic q) 0) eqn:Ec.
      * apply Qle_bool_iff in Ec.
        split; [lra |]. split; [intros; lra |].
        intros H31. specialize (L31 H31). lra.
      * split; [lra |]. split; [intros; lra | exact L31].
    + rewrite (clamp0_curve_zero q E Hq).
      split; [lra |]. split; [intros; lra | intros; lra].
Qed.

Lemma estimate_at_most_about_21_witness :
  exists v : Q,
    estimate (Finite (63 # 2)) = Return (PyNum (Finite v))
    /\ v <= 21 + (1 # 1000)
    /\ (63 # 2 <= 63 # 2 -> v < 2098 # 100)
    /\ (31 <= 63 # 2 -> 20 < v).
Proof. apply (estimate_at_most_about_21 (63 # 2)). reflexivity. Defined.

(** X7: the fitted cubic is negative just above -15, so the floor at zero
    widens the instant zone: the estimate is 0 for every temperature up to
    -11.01, and it is positive from -11 up to 32. *)
Theorem instant_zone (q : Q) :
  (q <= -(1101 # 100) -> estimate (Finite q) = Return (PyNum (Finite 0)))
  /\ (-11 <= q -> q < 32 ->
      exists v : Q, estimate (Finite q) = Return (PyNum (Finite v)) /\ 0 < v).
Proof.
  split.
  - intros H. assert (H32 : q < 32) by lra.
    rewrite (estimate_below_32 q H32).
    destruct (Qle_bool q (-15)) eqn:E; [reflexivity |].
    apply Qle_bool_false in E. now rewrite (clamp0_curve_zero q E H).
  - intros H1 H2. rewrite (estimate_below_32 q H2).
    assert (E : -15 < q) by lra. rewrite (Qle_bool_lt q (-15) E).
    eexists. split; [reflexivity |].
    rewrite curve_is_cubic.
    pose proof (cubic_positive q H1 (Qlt_le_weak _ _ H2)) as P.
    unfold clamp0. rewrite (Qle_bool_lt (newton_cubic q) 0 P). exact P.
Qed.

Lemma instant_zone_witness :
  estimate (Finite (-12)) = Return (PyNum (Finite 0))
  /\ exists v : Q, estimate (Finite (-11)) = Return (PyNum (Finite v)) /\ 0 < v.
Proof.
  split.
  - apply (proj1 (instant_zone (-12))). lra.
  - apply (proj2 (instant_zone (-11))); lra.
Defined.


(** ** Rounding *)

Lemma floor_bounds (x : Q) :
  inject_Z (Qfloor x) <= x /\ x < inject_Z (Qfloor x) + 1.
Proof.
  split; [apply Qfloor_le |].
  pose proof (Qlt_floor x) as H. rewrite inject_Z_plus in H. exact H.
Qed.

Lemma inject_Z_succ_le (a b : Z) : (a < b)%Z -> inject_Z a + 1 <= inject_Z b.
Proof.
  intros H. change 1 with (inject_Z 1). rewrite <- inject_Z_plus.
  rewrite <- Zle_Qle. lia.
Qed.

Lemma round_half_even_close (x : Q) :
  x - (1 # 2) <= inject_Z (PyFloat.round_half_even x)
  /\ inject_Z (PyFloat.round_half_even x) <= x + (1 # 2).
Proof.
  unfold PyFloat.round_half_even.
  destruct (floor_bounds x) as [Hlo Hhi].
  destruct (Qcompare_spec (x - inject_Z (Qfloor x)) (1 # 2)) as [E | E | E].
  - destruct (Z.even (Qfloor x)); [| rewrite inject_Z_plus; change (inject_Z 1) with 1];
      split; lra.
  - split; lra.
  - rewrite inject_Z_plus. change (inject_Z 1) with 1. split; lra.
Qed.

Lemma round_half_even_le (x : Q) (n : Z) :
  Z.even n = true ->
  (PyFloat.round_half_even x <= n)%Z <-> x <= inject_Z n + (1 # 2).
Proof.
  intros Hn. unfold PyFloat.round_half_even.
  destruct (floor_bounds x) as [Hlo Hhi].
  set (f := Qfloor x) in *.
  assert (Hcmp : forall a b : Z, (a <= b)%Z \/ inject_Z b + 1 <= inject_Z a).
  { intros a b. destruct (Z_le_gt_dec a b) as [H | H]; [now left | right].
    apply inject_Z_succ_le. lia. }
  assert (Hle : forall a b : Z, (a <= b)%Z -> inject_Z a <= inject_Z b).
  { intros a b H. rewrite <- Zle_Qle. exact H. }
  destruct (Qcompare_spec (x - inject_Z f) (1 # 2)) as [E | E | E].
  - assert (Hodd : Z.even f = false -> f <> n) by (intros H1 H2; congruence).
    destruct (Z.even f) eqn:Ef; split; intros H.
    + apply Hle in H. lra.
    + destruct (Hcmp f n) as [H1 | H1]; [exact H1 | lra].
    + assert (H1 : (f < n)%Z) by lia. apply inject_Z_succ_le in H1. lra.
    + destruct (Hcmp f n) as [H1 | H1]; [| lra].
      specialize (Hodd eq_refl). lia.
  - split; intros H.
    + apply Hle in H. lra.
    + destruct (Hcmp f n) as [H1 | H1]; [exact H1 | lra].
  - split; intros H.
    + assert (H1 : (f < n)%Z) by lia. apply inject_Z_succ_le in H1. lra.
    + destruct (Hcmp (f + 1)%Z n) as [H2 | H2]; [exact H2 |].
      rewrite inject_Z_plus in H2. change (inject_Z 1) with 1 in H2. lra.
Qed.

Lemma tenths_le (r k : Z) :
  Qle_bool (inject_Z r / 10) (inject_Z k) = (r <=? 10 * k)%Z.
Proof.
  destruct (Z.leb_spec r (10 * k)) as [H | H].
  - apply Qle_bool_true. rewrite Zle_Qle, inject_Z_mult in H.
    change (inject_Z 10) with 10 in H.
    unfold Qdiv. change (/ 10) with (1 # 10). lra.
  - apply Qle_bool_lt. rewrite Zlt_Qlt, inject_Z_mult in H.
    change (inject_Z 10) with 10 in H.
    unfold Qdiv. change (/ 10) with (1 # 10). lra.
Qed.

Lemma tenths_eq_zero (r : Z) :
  Qeq_bool (inject_Z r / 10) (inject_Z 0) = (r =? 0)%Z.
Proof.
  destruct (Z.eqb_spec r 0) as [-> | H].
  - reflexivity.
  - destruct (Qeq_bool (inject_Z r / 10) (inject_Z 0)) eqn:E; [| reflexivity].
    apply Qeq_bool_iff in E. exfalso. apply H.
    assert (E' : inject_Z r == inject_Z 0).
    { unfold Qdiv in E. change (/ 10) with (1 # 10) in E.
      change (inject_Z 0) with 0 in *. lra. }
    apply inject_Z_injective. exact E'.
Qed.

Lemma result_of_number (t : pyfloat) (v : Q) :
  result_of t (PyNum (Finite v))
  = let r := PyFloat.round_half_even (v * 10) in
    Result t (Finite (inject_Z r / 10))
      (if (r <=? 0)%Z then Instant
       else Hours (Finite (inject_Z (PyFloat.round_half_even (v * 24 * 10)) / 10)))
      (if (r =? 0)%Z then FreezeInstantly
       else if (r <=? 10)%Z then RapidFreezing
       else if (r <=? 70)%Z then ModerateFreezingTime
       else ExtendedFreezingTime).
Proof.
  unfold result_of, PyFloat.round1, PyFloat.gt, PyFloat.lt, PyFloat.le,
    PyFloat.eq, PyFloat.mul, PyFloat.of_Z.
  cbv zeta.
  rewrite tenths_eq_zero, !tenths_le.
  change (10 * 0)%Z with 0%Z. change (10 * 1)%Z with 10%Z.
  change (10 * 7)%Z with 70%Z. change (inject_Z 24) with 24.
  now destruct (PyFloat.round_half_even (v * 10) <=? 0)%Z.
Qed.

Lemma round_half_even_nonneg (x : Q) :
  0 <= x -> (0 <= PyFloat.round_half_even x)%Z.
Proof.
  intros H. destruct (round_half_even_close x) as [Hlo _].
  destruct (Z_le_gt_dec 0 (PyFloat.round_half_even x)) as [H0 | H0]; [exact H0 |].
  assert (H1 : (PyFloat.round_half_even x < 0)%Z) by lia.
  apply inject_Z_succ_le in H1. change (inject_Z 0) with 0 in H1. lra.
Qed.

Lemma tenths_thresholds (v : Q) :
  0 <= v ->
  let r := PyFloat.round_half_even (v * 10) in
  (0 <= r)%Z
  /\ ((r <= 0)%Z <-> v <= 1 # 20)
  /\ ((r <= 10)%Z <-> v <= 21 # 20)
  /\ ((r <= 70)%Z <-> v <= 141 # 20).
Proof.
  intros Hv r. subst r.
  split; [apply round_half_even_nonneg; lra |].
  rewrite !round_half_even_le by reflexivity.
  change (inject_Z 0) with 0. change (inject_Z 10) with 10.
  change (inject_Z 70) with 70.
  repeat split; intros; lra.
Qed.

Ltac settle_bucket :=
  split;
  [ intros X; try discriminate X; repeat split; lra
  | intros X; try reflexivity; exfalso;
    repeat match goal with H : _ /\ _ |- _ => destruct H end; lra ].

(** X8: which message is shown under the result is decided by the days
    rounded to one decimal, so in terms of the estimate [v] itself:
    "instantly" up to 0.05 days, "rapid" above that up to 1.05, "moderate"
    above that up to 7.05, "extended" beyond; and the metric says
    "Instant" instead of hours exactly when the message is "instantly". *)
Theorem interpretation_thresholds (t : pyfloat) (v : Q) :
  0 <= v ->
  exists (days : Q) (d : delta) (i : interpretation),
    result_of t (PyNum (Finite v)) = Result t (Finite days) d i
    /\ (i = FreezeInstantly <-> v <= 1 # 20)
    /\ (i = RapidFreezing <-> 1 # 20 < v /\ v <= 21 # 20)
    /\ (i = ModerateFreezingTime <-> 21 # 20 < v /\ v <= 141 # 20)
    /\ (i = ExtendedFreezingTime <-> 141 # 20 < v)
    /\ (d = Instant <-> v <= 1 # 20).
Proof.
  intros Hv. rewrite result_of_number. cbv zeta.
  destruct (tenths_thresholds v Hv) as (Hr & H0 & H10 & H70).
  set (r := PyFloat.round_half_even (v * 10)) in *.
  eexists. eexists. eexists. split; [reflexivity |].
  assert (N0 : ~ (r <= 0)%Z -> 1 # 20 < v).
  { intros N. apply Qnot_le_lt. intros X. apply N, H0, X. }
  assert (N10 : ~ (r <= 10)%Z -> 21 # 20 < v).
  { intros N. apply Qnot_le_lt. intros X. apply N, H10, X. }
  assert (N70 : ~ (r <= 70)%Z -> 141 # 20 < v).
  { intros N. apply Qnot_le_lt. intros X. apply N, H70, X. }
  destruct (Z.eqb_spec r 0) as [E0 | E0].
  - assert (Q0 : v <= 1 # 20) by (apply H0; lia).
    replace (r <=? 0)%Z with true by (symmetry; apply Z.leb_le; lia).
    do 4 (split; [settle_bucket |]). settle_bucket.
  - assert (Q0 : 1 # 20 < v) by (apply N0; lia).
    replace (r <=? 0)%Z with false by (symmetry; apply Z.leb_gt; lia).
    destruct (Z.leb_spec r 10) as [E10 | E10];
      [| destruct (Z.leb_spec r 70) as [E70 | E70]].
    + assert (Q10 : v <= 21 # 20) by (apply H10; lia).
      do 4 (split; [settle_bucket |]). settle_bucket.
    + assert (Q10 : 21 # 20 < v) by (apply N10; lia).
      assert (Q70 : v <= 141 # 20) by (apply H70; lia).
      do 4 (split; [settle_bucket |]). settle_bucket.
    + assert (Q70 : 141 # 20 < v) by (apply N70; lia).
      do 4 (split; [settle_bucket |]). settle_bucket.
Qed.

Lemma interpretation_thresholds_witness :
  exists (days : Q) (d : delta) (i : interpretation),
    result_of (Finite (-5)) (PyNum (Finite (21 # 20)))
    = Result (Finite (-5)) (Finite days) d i
    /\ (i = FreezeInstantly <-> 21 # 20 <= 1 # 20)
    /\ (i = RapidFreezing <-> 1 # 20 < 21 # 20 /\ 21 # 20 <= 21 # 20)
    /\ (i = ModerateFreezingTime <-> 21 # 20 < 21 # 20 /\ 21 # 20 <= 141 # 20)
    /\ (i = ExtendedFreezingTime <-> 141 # 20 < 21 # 20)
    /\ (d = Instant <-> 21 # 20 <= 1 # 20).
Proof. apply (interpretation_thresholds (Finite (-5)) (21 # 20)). lra. Defined.

(** X9: for an estimate between 0 and 1000 days the days shown are a whole
    number of tenths, not negative, and within 0.05 of the estimate; hours,
    when they are shown, are within 0.06 of 24 times the estimate (0.05 for
    [round(., 1)], the rest is room for the rounding of the product
    [freezing_time * 24], which is exact here). *)
Theorem displayed_values_accurate (t : pyfloat) (v : Q) :
  0 <= v -> v <= 1000 ->
  exists (days : Q) (d : delta) (i : interpretation),
    result_of t (PyNum (Finite v)) = Result t (Finite days) d i
    /\ (exists k : Z, (0 <= k)%Z /\ days == inject_Z k / 10)
    /\ v - (1 # 20) <= days /\ days <= v + (1 # 20)
    /\ (forall h : pyfloat, d = Hours h ->
        exists hq : Q, h = Finite hq
                       /\ 24 * v - (3 # 50) <= hq /\ hq <= 24 * v + (3 # 50)).
Proof.
  intros Hv _. rewrite result_of_number. cbv zeta.
  eexists. eexists. eexists. split; [reflexivity |].
  destruct (round_half_even_close (v * 10)) as [Hlo Hhi].
  split; [| split; [| split]].
  - exists (PyFloat.round_half_even (v * 10)).
    split; [apply round_half_even_nonneg; lra | reflexivity].
  - unfold Qdiv. change (/ 10) with (1 # 10). lra.
  - unfold Qdiv. change (/ 10) with (1 # 10). lra.
  - intros h Hh.
    destruct (PyFloat.round_half_even (v * 10) <=? 0)%Z; [discriminate Hh |].
    injection Hh as <-. eexists. split; [reflexivity |].
    destruct (round_half_even_close (v * 24 * 10)) as [Hlo' Hhi'].
    unfold Qdiv. change (/ 10) with (1 # 10). split; lra.
Qed.

Lemma displayed_values_accurate_witness :
  exists (days : Q) (d : delta) (i : interpretation),
    result_of (Finite (-(21 # 2))) (PyNum (Finite (5 # 96)))
    = Result (Finite (-(21 # 2))) (Finite days) d i
    /\ (exists k : Z, (0 <= k)%Z /\ days == inject_Z k / 10)
    /\ (5 # 96) - (1 # 20) <= days
    /\ days <= (5 # 96) + (1 # 20)
    /\ (forall h : pyfloat, d = Hours h ->
        exists hq : Q, h = Finite hq
                       /\ 24 * (5 # 96) - (3 # 50) <= hq
                       /\ hq <= 24 * (5 # 96) + (3 # 50)).
Proof.
  apply (displayed_values_accurate (Finite (-(21 # 2))) (5 # 96)); lra.
Defined.

(** ** The page for the shipped dictionary *)

Lemma plot_days_module (l : list pyfloat) :
  mapM (fun temp => bind (interpolate_freezing_time temp)
                         (fun days => ret (days_or_zero days)))
       l module_globals
  = (Return (map (fun t => days_or_zero (thresholds t)) l), module_globals).
Proof.
  induction l as [| t l IH]; [reflexivity |].
  simpl.
  rewrite (bind_return _ _ module_globals (days_or_zero (thresholds t)) module_globals).
  - rewrite (bind_return _ _ module_globals _ module_globals IH). reflexivity.
  - rewrite (bind_return _ _ module_globals (thresholds t) module_globals);
      [reflexivity | apply interpolate_freezing_time_module].
Qed.

Lemma main_module (temp_input : pyfloat) :
  main temp_input module_globals
  = (Return
       {| panel := result_of temp_input (thresholds temp_input);
          quick_reference :=
            map (fun '(temp, days) => (temp, days, negb (Z.eqb days 1)))
                (sorted_items data_points);
          plot_temps := linspace (-20) 33 100;
          plot_days := map (fun t => days_or_zero (thresholds t))
                           (linspace (-20) 33 100);
          empirical_data := map_to_list data_points;
          your_input := match thresholds temp_input with
                        | PyNone => None
                        | PyNum v => Some (temp_input, v)
                        end |},
     module_globals).
Proof.
  unfold main.
  rewrite (bind_return _ _ module_globals _ module_globals
             (interpolate_freezing_time_module temp_input)).
  rewrite (bind_return _ _ module_globals (sorted_items data_points) module_globals)
    by reflexivity.
  rewrite (bind_return _ _ module_globals _ module_globals
             (plot_days_module (linspace (-20) 33 100))).
  rewrite (bind_return _ _ module_globals (map_to_list data_points) module_globals)
    by reflexivity.
  rewrite (bind_return _ _ module_globals _ module_globals
             (interpolate_freezing_time_module temp_input)).
  cbv beta.
  destruct (thresholds temp_input) as [| v] eqn:E; cbv beta iota.
  - reflexivity.
  - rewrite (bind_return _ _ module_globals (Some (temp_input, v)) module_globals);
      [reflexivity |].
    rewrite (bind_return _ _ module_globals _ module_globals
               (interpolate_freezing_time_module temp_input)).
    rewrite E. reflexivity.
Qed.

(** X10: for a finite temperature the left column shows the warning
    exactly from 32 upwards, and then no green point is drawn; below 32 it
    shows the result computed from the estimate, and the green point sits
    at the estimate itself, before rounding. *)
Theorem main_result_or_warning (q : Q) :
  exists s : screen,
    main (Finite q) module_globals = (Return s, module_globals)
    /\ (32 <= q -> panel s = WontFreeze (Finite q) /\ your_input s = None)
    /\ (q < 32 ->
        exists v : Q,
          estimate (Finite q) = Return (PyNum (Finite v))
          /\ panel s = result_of (Finite q) (PyNum (Finite v))
          /\ (exists days d i, panel s = Result (Finite q) days d i)
          /\ your_input s = Some (Finite q, Finite v)).
Proof.
  rewrite main_module. eexists. split; [reflexivity |]. cbn [panel your_input].
  rewrite estimate_thresholds, thresholds_finite.
  destruct (Qle_bool q (-15)) eqn:E1; [| destruct (Qle_bool 32 q) eqn:E2].
  - apply Qle_bool_iff in E1. split; [intros; exfalso; lra |]. intros _.
    exists 0. repeat split. cbn [result_of]. eauto.
  - apply Qle_bool_iff in E2. split; [intros _; split; reflexivity |].
    intros; exfalso; lra.
  - apply Qle_bool_false in E2. split; [intros; exfalso; lra |]. intros _.
    exists (clamp0 (curve q)). repeat split. cbn [result_of]. eauto.
Qed.

Lemma clamp0_curve_lt_21 q : -15 < q -> q < 32 -> clamp0 (curve q) < 21.
Proof.
  intros H1 H2.
  destruct (Qlt_le_dec (-(1101 # 100)) q) as [Hq | Hq].
  - assert (Hq' : -(1101 # 100) <= q) by lra.
    pose proof (cubic_below_21 q Hq' H2) as B.
    rewrite curve_is_cubic. unfold clamp0.
    destruct (Qle_bool (newton_cubic q) 0); [reflexivity | exact B].
  - rewrite (clamp0_curve_zero q H1 Hq). reflexivity.
Qed.

Lemma linspace_range (t : pyfloat) :
  In t (linspace (-20) 33 100) ->
  exists q : Q, t = Finite q /\ -20 <= q /\ q <= 33.
Proof.
  unfold linspace. intros H. apply in_map_iff in H as (i & <- & Hi).
  apply in_seq in Hi. eexists. split; [reflexivity |].
  assert (S : (33 - -20) / inject_Z (Z.of_nat (100 - 1)) == 53 # 99) by reflexivity.
  rewrite S.
  assert (H0 : inject_Z 0 <= inject_Z (Z.of_nat i)) by (rewrite <- Zle_Qle; lia).
  assert (H99 : inject_Z (Z.of_nat i) <= inject_Z 99) by (rewrite <- Zle_Qle; lia).
  change (inject_Z 0) with 0 in H0. change (inject_Z 99) with 99 in H99.
  split; lra.
Qed.

Lemma Forall2_map_graph {A B} (P : A -> B -> Prop) (f : A -> B) (l : list A) :
  (forall a, In a l -> P a (f a)) -> Forall2 P l (map f l).
Proof.
  induction l as [| a l IH]; intros H; simpl; constructor.
  - apply H. now left.
  - apply IH. intros b Hb. apply H. now right.
Qed.

(** X11: the curve that is drawn.  There is one plotted value for each of
    the 100 sample temperatures between -20 and 33; each is the estimate at
    that temperature, a number in [0, 21), except that a sample at or above
    32, where the function returns the marker, is plotted as 0 days. *)
Theorem plotted_curve (temp_input : pyfloat) :
  exists s : screen,
    main temp_input module_globals = (Return s, module_globals)
    /\ length (plot_temps s) = 100%nat
    /\ Forall2 (fun t d =>
                  exists q v : Q,
                    t = Finite q /\ d = Finite v
                    /\ -20 <= q /\ q <= 33
                    /\ 0 <= v /\ v < 21
                    /\ (q < 32 -> estimate (Finite q) = Return (PyNum (Finite v)))
                    /\ (32 <= q -> estimate (Finite q) = NOT_FREEZING /\ v = 0))
               (plot_temps s) (plot_days s).
Proof.
  rewrite main_module. eexists. split; [reflexivity |].
  cbn [plot_temps plot_days]. split; [reflexivity |].
  apply Forall2_map_graph. intros t Ht.
  destruct (linspace_range t Ht) as (q & -> & Hlo & Hhi).
  exists q. rewrite estimate_thresholds, thresholds_finite.
  destruct (Qle_bool q (-15)) eqn:E1; [| destruct (Qle_bool 32 q) eqn:E2].
  - apply Qle_bool_iff in E1. exists 0.
    repeat split; try reflexivity; try lra; intros; exfalso; lra.
  - apply Qle_bool_iff in E2. exists 0.
    repeat split; try reflexivity; try lra; intros; exfalso; lra.
  - apply Qle_bool_false in E1. apply Qle_bool_false in E2.
    exists (clamp0 (curve q)).
    repeat split; try reflexivity; try lra;
      try apply clamp0_nonneg; try (now apply clamp0_curve_lt_21);
      intros; exfalso; lra.
Qed.

(** ** The quick reference table, for any dictionary *)

Lemma main_quick_reference temp_input g s g' :
  main temp_input g = (Return s, g') ->
  quick_reference s
  = map (fun '(temp, days) => (temp, days, negb (Z.eqb days 1)))
        (sorted_items (g_data_points g)).
Proof.
  unfold main. intros H.
  destruct (interpolate_freezing_time_cases temp_input g) as [E | (f & E)].
  { rewrite (bind_raise _ _ g _ g E) in H. discriminate H. }
  rewrite (bind_return _ _ g _ g E) in H.
  rewrite (bind_return _ _ g (sorted_items (g_data_points g)) g) in H
    by reflexivity.
  cbv beta in H. unfold bind at 1 in H.
  destruct (mapM _ _ g) as [[days | e] g1]; [| discriminate H].
  unfold bind at 1 in H. unfold bind at 1 in H.
  cbv [read_data_points ret] in H. unfold bind at 1 in H.
  destruct (interpolate_freezing_time temp_input g1) as [[shown | e] g2];
    [| discriminate H].
  unfold bind at 1 in H.
  destruct shown as [| x].
  - injection H as <- _. reflexivity.
  - unfold bind at 1 in H.
    destruct (interpolate_freezing_time temp_input g2) as [[user_days | e] g3];
      [| discriminate H].
    injection H as <- _. reflexivity.
Qed.

#[local] Instance pair_le_total : Total pair_le.
Proof. intros [a1 a2] [b1 b2]. unfold pair_le. simpl. lia. Qed.

#[local] Instance pair_le_transitive : Transitive pair_le.
Proof. intros [a1 a2] [b1 b2] [c1 c2]. unfold pair_le. simpl. lia. Qed.

Lemma sorted_items_spec (d : gmap Z Z) (t v : Z) :
  (t, v) ∈ sorted_items d <-> d !! t = Some v.
Proof.
  unfold sorted_items. rewrite merge_sort_Permutation.
  apply elem_of_map_to_list.
Qed.

Lemma sorted_items_strict (d : gmap Z Z) :
  StronglySorted (fun a b : Z * Z => (a.1 < b.1)%Z) (sorted_items d).
Proof.
  assert (S : StronglySorted pair_le (sorted_items d)).
  { unfold sorted_items. apply StronglySorted_merge_sort; apply _. }
  assert (N : NoDup (sorted_items d).*1).
  { unfold sorted_items. rewrite merge_sort_Permutation.
    apply NoDup_fst_map_to_list. }
  induction S as [| a l S IH F]; [constructor |].
  rewrite fmap_cons in N. apply NoDup_cons in N as [Na N].
  constructor; [now apply IH |].
  apply Forall_forall. intros b Hb. rewrite Forall_forall in F.
  destruct (F b Hb) as [Hlt | [Heq _]]; [exact Hlt |].
  exfalso. apply Na. rewrite Heq. now apply list_elem_of_fmap_2.
Qed.

(** X12: whenever the page is drawn, whatever the dictionary, the quick
    reference lists the anchors in strictly ascending temperature, one row
    for each entry of the dictionary and no other, with the plural "days"
    unless the entry is exactly 1 day. *)
Theorem quick_reference_rows
    (temp_input : pyfloat) (g g' : globals) (s : screen) :
  main temp_input g = (Return s, g') ->
  StronglySorted (fun r1 r2 : Z * Z * bool => (r1.1.1 < r2.1.1)%Z)
                 (quick_reference s)
  /\ forall (t v : Z) (plural : bool),
       In (t, v, plural) (quick_reference s)
       <-> g_data_points g !! t = Some v /\ plural = negb (v =? 1)%Z.
Proof.
  intros H. rewrite (main_quick_reference _ _ _ _ H). split.
  - pose proof (sorted_items_strict (g_data_points g)) as S.
    induction S as [| [t v] l S IH F]; simpl; constructor; [exact IH |].
    apply Forall_forall. intros r Hr. apply list_elem_of_In in Hr.
    apply in_map_iff in Hr as ([t' v'] & <- & Hr). simpl.
    rewrite Forall_forall in F. apply list_elem_of_In in Hr.
    exact (F _ Hr).
  - intros t v plural. rewrite in_map_iff. split.
    + intros ([t' v'] & E & Hin). injection E as -> -> <-.
      split; [| reflexivity].
      apply sorted_items_spec. now apply list_elem_of_In.
    + intros [Hd ->]. exists (t, v). split; [reflexivity |].
      apply list_elem_of_In. now apply sorted_items_spec.
Qed.

Lemma quick_reference_rows_witness :
  exists s : screen,
    main (Finite 10) module_globals = (Return s, module_globals)
    /\ quick_reference s
       = [(-15, 0, true); (-4, 2, true); (0, 4, true); (32, 21, true)]%Z
    /\ StronglySorted (fun r1 r2 : Z * Z * bool => (r1.1.1 < r2.1.1)%Z)
                      (quick_reference s)
    /\ forall (t v : Z) (plural : bool),
         In (t, v, plural) (quick_reference s)
         <-> data_points !! t = Some v /\ plural = negb (v =? 1)%Z.
Proof.
  eexists. split; [apply main_module |]. split; [vm_compute; reflexivity |].
  apply (quick_reference_rows (Finite 10) module_globals module_globals).
  apply main_module.
Defined.

(** ** From the temperature to the message *)

Lemma result_of_by_range (t : pyfloat) (v : Q) :
  0 <= v ->
  exists days h : Q,
    (v <= 1 # 20 ->
     result_of t (PyNum (Finite v)) = Result t (Finite days) Instant FreezeInstantly)
    /\ (1 # 20 < v -> v <= 21 # 20 ->
        result_of t (PyNum (Finite v))
        = Result t (Finite days) (Hours (Finite h)) RapidFreezing)
    /\ (21 # 20 < v -> v <= 141 # 20 ->
        result_of t (PyNum (Finite v))
        = Result t (Finite days) (Hours (Finite h)) ModerateFreezingTime)
    /\ (141 # 20 < v ->
        result_of t (PyNum (Finite v))
        = Result t (Finite days) (Hours (Finite h)) ExtendedFreezingTime).
Proof.
  intros Hv. rewrite result_of_number. cbv zeta.
  destruct (tenths_thresholds v Hv) as (Hr & H0 & H10 & H70).
  set (r := PyFloat.round_half_even (v * 10)) in *.
  eexists. eexists. split; [| split; [| split]].
  - intros X. apply H0 in X.
    replace (r <=? 0)%Z with true by (symmetry; apply Z.leb_le; lia).
    replace (r =? 0)%Z with true by (symmetry; apply Z.eqb_eq; lia).
    reflexivity.
  - intros X Y. apply H10 in Y.
    assert (N : ~ (r <= 0)%Z) by (intros N; apply H0 in N; lra).
    replace (r <=? 0)%Z with false by (symmetry; apply Z.leb_gt; lia).
    replace (r =? 0)%Z with false by (symmetry; apply Z.eqb_neq; lia).
    replace (r <=? 10)%Z with true by (symmetry; apply Z.leb_le; lia).
    reflexivity.
  - intros X Y. apply H70 in Y.
    assert (N : ~ (r <= 10)%Z) by (intros N; apply H10 in N; lra).
    replace (r <=? 0)%Z with false by (symmetry; apply Z.leb_gt; lia).
    replace (r =? 0)%Z with false by (symmetry; apply Z.eqb_neq; lia).
    replace (r <=? 10)%Z with false by (symmetry; apply Z.leb_gt; lia).
    replace (r <=? 70)%Z with true by (symmetry; apply Z.leb_le; lia).
    reflexivity.
  - intros X.
    assert (N : ~ (r <= 70)%Z) by (intros N; apply H70 in N; lra).
    replace (r <=? 0)%Z with false by (symmetry; apply Z.leb_gt; lia).
    replace (r =? 0)%Z with false by (symmetry; apply Z.eqb_neq; lia).
    replace (r <=? 10)%Z with false by (symmetry; apply Z.leb_gt; lia).
    replace (r <=? 70)%Z with false by (symmetry; apply Z.leb_gt; lia).
    reflexivity.
Qed.

Lemma clamp0_curve_between (lo hi q : Q) :
  -(1101 # 100) <= lo -> lo <= q -> q <= hi -> hi <= 32 ->
  0 < newton_cubic lo ->
  newton_cubic lo <= clamp0 (curve q) /\ clamp0 (curve q) <= newton_cubic hi.
Proof.
  intros H1 H2 H3 H4 Hpos.
  assert (A : newton_cubic lo <= newton_cubic q)
    by (apply cubic_increasing; lra).
  assert (B : newton_cubic q <= newton_cubic hi)
    by (apply cubic_increasing; lra).
  rewrite curve_is_cubic. unfold clamp0.
  assert (P : 0 < newton_cubic q) by lra.
  rewrite (Qle_bool_lt (newton_cubic q) 0 P). split; assumption.
Qed.

Lemma clamp0_curve_at_most (hi q : Q) :
  -15 < q -> q <= hi -> hi <= 32 -> 0 <= newton_cubic hi ->
  clamp0 (curve q) <= newton_cubic hi.
Proof.
  intros H1 H2 H3 Hpos.
  destruct (Qlt_le_dec (-(1101 # 100)) q) as [Hq | Hq].
  - assert (B : newton_cubic q <= newton_cubic hi)
      by (apply cubic_increasing; lra).
    rewrite curve_is_cubic. unfold clamp0.
    destruct (Qle_bool (newton_cubic q) 0); [exact Hpos | exact B].
  - rewrite (clamp0_curve_zero q H1 Hq). exact Hpos.
Qed.

Lemma estimate_by_range (q : Q) :
  q < 32 ->
  exists v : Q,
    thresholds (Finite q) = PyNum (Finite v)
    /\ 0 <= v
    /\ (q <= -(107 # 10) -> v <= 1 # 20)
    /\ (-(53 # 5) <= q -> q <= -(13 # 2) -> 1 # 20 < v /\ v <= 21 # 20)
    /\ (-6 <= q -> q <= 9 # 2 -> 21 # 20 < v /\ v <= 141 # 20)
    /\ (5 <= q -> 141 # 20 < v).
Proof.
  intros H. rewrite thresholds_finite.
  destruct (Qle_bool q (-15)) eqn:E.
  - apply Qle_bool_iff in E. exists 0. split; [reflexivity |].
    split; [lra |]. split; [intros; lra |].
    repeat split; intros; exfalso; lra.
  - apply Qle_bool_false in E. rewrite (Qle_bool_lt 32 q H).
    exists (clamp0 (curve q)). split; [reflexivity |].
    split; [apply clamp0_nonneg |].
    split; [| split; [| split]].
    + intros X.
      assert (P : 0 <= newton_cubic (-(107 # 10)))
        by (apply Qle_bool_iff; vm_compute; reflexivity).
      assert (B : newton_cubic (-(107 # 10)) <= 1 # 20)
        by (apply Qle_bool_iff; vm_compute; reflexivity).
      pose proof (clamp0_curve_at_most (-(107 # 10)) q E X ltac:(lra) P). lra.
    + intros X Y.
      assert (P : 1 # 20 < newton_cubic (-(53 # 5))) by reflexivity.
      assert (B : newton_cubic (-(13 # 2)) <= 21 # 20)
        by (apply Qle_bool_iff; vm_compute; reflexivity).
      destruct (clamp0_curve_between (-(53 # 5)) (-(13 # 2)) q); lra.
    + intros X Y.
      assert (P : 21 # 20 < newton_cubic (-6)) by reflexivity.
      assert (B : newton_cubic (9 # 2) <= 141 # 20)
        by (apply Qle_bool_iff; vm_compute; reflexivity).
      destruct (clamp0_curve_between (-6) (9 # 2) q); lra.
    + intros X.
      assert (P : 141 # 20 < newton_cubic 5) by reflexivity.
      destruct (clamp0_curve_between 5 32 q); lra.
Qed.

(** X13: from the temperature entered to the message shown, for the
    shipped dictionary.  The page says "instantly" (0.0 days, "Instant") for
    every temperature up to -10.7, "rapid" from -10.6 to -6.5, "moderate"
    from -6 to 4.5 and "extended" from 5 up to 32. *)
Theorem message_by_temperature (q : Q) :
  exists s : screen,
    main (Finite q) module_globals = (Return s, module_globals)
    /\ (q <= -(107 # 10) ->
        exists days : pyfloat,
          panel s = Result (Finite q) days Instant FreezeInstantly)
    /\ (-(53 # 5) <= q -> q <= -(13 # 2) ->
        exists days hours : pyfloat,
          panel s = Result (Finite q) days (Hours hours) RapidFreezing)
    /\ (-6 <= q -> q <= 9 # 2 ->
        exists days hours : pyfloat,
          panel s = Result (Finite q) days (Hours hours) ModerateFreezingTime)
    /\ (5 <= q -> q < 32 ->
        exists days hours : pyfloat,
          panel s = Result (Finite q) days (Hours hours) ExtendedFreezingTime).
Proof.
  rewrite main_module. eexists. split; [reflexivity |]. cbn [panel].
  assert (R : q < 32 ->
    exists v days h : Q,
      thresholds (Finite q) = PyNum (Finite v)
      /\ (q <= -(107 # 10) ->
          result_of (Finite q) (PyNum (Finite v))
          = Result (Finite q) (Finite days) Instant FreezeInstantly)
      /\ (-(53 # 5) <= q -> q <= -(13 # 2) ->
          result_of (Finite q) (PyNum (Finite v))
          = Result (Finite q) (Finite days) (Hours (Finite h)) RapidFreezing)
      /\ (-6 <= q -> q <= 9 # 2 ->
          result_of (Finite q) (PyNum (Finite v))
          = Result (Finite q) (Finite days) (Hours (Finite h)) ModerateFreezingTime)
      /\ (5 <= q ->
          result_of (Finite q) (PyNum (Finite v))
          = Result (Finite q) (Finite days) (Hours (Finite h)) ExtendedFreezingTime)).
  { intros H. destruct (estimate_by_range q H) as (v & Ev & Hv & V1 & V2 & V3 & V4).
    destruct (result_of_by_range (Finite q) v Hv) as (days & h & R1 & R2 & R3 & R4).
    exists v, days, h. split; [exact Ev |].
    split; [intros X; apply R1, V1, X |].
    split; [intros X Y; destruct (V2 X Y); now apply R2 |].
    split; [intros X Y; destruct (V3 X Y); now apply R3 |].
    intros X. apply R4, V4, X. }
  split; [| split; [| split]].
  - intros X. destruct R as (v & days & h & -> & R1 & _); [lra |].
    exists (Finite days). now apply R1.
  - intros X Y. destruct R as (v & days & h & -> & _ & R2 & _); [lra |].
    exists (Finite days), (Finite h). now apply R2.
  - intros X Y. destruct R as (v & days & h & -> & _ & _ & R3 & _); [lra |].
    exists (Finite days), (Finite h). now apply R3.
  - intros X Y. destruct R as (v & days & h & -> & _ & _ & _ & R4); [lra |].
    exists (Finite days), (Finite h). now apply R4.
Qed.

Lemma message_by_temperature_witness :
  exists s : screen,
    main (Finite (-11)) module_globals = (Return s, module_globals)
    /\ (exists days : pyfloat,
          panel s = Result (Finite (-11)) days Instant FreezeInstantly)
    /\ exists v : Q, estimate (Finite (-11)) = Return (PyNum (Finite v)) /\ 0 < v.
Proof.
  destruct (message_by_temperature (-11)) as (s & Hs & H1 & _).
  exists s. split; [exact Hs |]. split; [apply H1; lra |].
  exists (clamp0 (curve (-11))). split; [| reflexivity].
  vm_compute. reflexivity.
Defined.

(** X14: with fewer than four anchors in the dictionary the page cannot
    be drawn: [main] raises the exception of [interp1d] at its first call
    of the function, whatever temperature is entered. *)
Theorem main_needs_four_anchors (d : gmap Z Z) (temp_input : pyfloat) :
  (size d < 4)%nat ->
  main temp_input {| g_data_points := d |}
  = (Raise InterpError, {| g_data_points := d |}).
Proof.
  intros H. unfold main. apply bind_raise. now apply few_anchors_raise.
Qed.

Lemma main_needs_four_anchors_witness :
  (size (<[0%Z := 4%Z]> (<[(-15)%Z := 0%Z]> ∅) : gmap Z Z) < 4)%nat
  /\ main (Finite 10) {| g_data_points := <[0%Z := 4%Z]> (<[(-15)%Z := 0%Z]> ∅) |}
     = (Raise InterpError,
        {| g_data_points := <[0%Z := 4%Z]> (<[(-15)%Z := 0%Z]> ∅) |}).
Proof.
  split; [vm_compute; lia |].
  apply (main_needs_four_anchors (<[0%Z := 4%Z]> (<[(-15)%Z := 0%Z]> ∅)) (Finite 10)).
  vm_compute. lia.
Defined.

Lemma main_result_or_warning_witness :
  exists s : screen,
    main (Finite 10) module_globals = (Return s, module_globals)
    /\ exists v : Q,
         estimate (Finite 10) = Return (PyNum (Finite v))
         /\ panel s = result_of (Finite 10) (PyNum (Finite v))
         /\ (exists days d i, panel s = Result (Finite 10) days d i)
         /\ your_input s = Some (Finite 10, Finite v).
Proof.
  destruct (main_result_or_warning 10) as (s & Hs & _ & H).
  exists s. split; [exact Hs |]. apply H. lra.
Defined.
